(** * of_lldp: LLDP link discovery NApp (main.py)

    A shallow embedding of [Main.execute] (the Prober),
    [Main.notify_uplink_detected] (the Correlator),
    [Main.build_lldp_packet_out] and [Main.unpack_non_empty], together with
    the part of the python-openflow (pyof) codec these methods call.

    Python values are modelled as follows:
    - [bytes] is a list of [byte];
    - an [int] is a [Z]; a value that may be [None] is an [option];
    - a raised exception is the [Raise] branch of [result];
    - the two event buffers ([msg_out], [app]) are lists of events, threaded
      through the computation so that what was put before an exception is
      still in the buffer afterwards. *)

From Stdlib Require Import ZArith List String Ascii Bool Lia.
From Stdlib Require Import Strings.Byte.
Import ListNotations.
Open Scope Z_scope.

(** ** Exceptions and results *)

(** The exception classes that occur in main.py and in the codec. *)
Inductive exn : Type :=
| AttributeError
| ValueError
| struct_error
| PackException
| UnpackException
| TypeError.

Definition exn_eqb (a b : exn) : bool :=
  match a, b with
  | AttributeError, AttributeError => true
  | ValueError, ValueError => true
  | struct_error, struct_error => true
  | PackException, PackException => true
  | UnpackException, UnpackException => true
  | TypeError, TypeError => true
  | _, _ => false
  end.

Inductive result (A : Type) : Type :=
| Ok (a : A)
| Raise (e : exn).
Arguments Ok {A} a.
Arguments Raise {A} e.

Definition rbind {A B} (r : result A) (k : A -> result B) : result B :=
  match r with
  | Ok a => k a
  | Raise e => Raise e
  end.

Declare Scope py_scope.
Delimit Scope py_scope with py.
Notation "x <- r ;; k" := (rbind r (fun x => k))
  (at level 61, r at next level, right associativity) : py_scope.
Open Scope py_scope.

(** [try: r except from_: raise to_] as used by the codec wrappers. *)
Definition reraise (from_ to_ : exn) {A} (r : result A) : result A :=
  match r with
  | Ok a => Ok a
  | Raise e => if exn_eqb e from_ then Raise to_ else Raise e
  end.

Fixpoint mapM {A B} (f : A -> result B) (l : list A) : result (list B) :=
  match l with
  | [] => Ok []
  | x :: xs => y <- f x ;; ys <- mapM f xs ;; Ok (y :: ys)
  end.

(** ** Bytes *)

Definition bytes := list byte.

Definition byte_to_Z (b : byte) : Z := Z.of_N (Byte.to_N b).

Definition Z_to_byte (z : Z) : byte :=
  match Byte.of_N (Z.to_N (z mod 256)) with
  | Some b => b
  | None => x00
  end.

(** Python slice [b[i:j]] for non-negative [i], [j]. *)
Definition slice (b : bytes) (i j : nat) : bytes := firstn (j - i) (skipn i b).

(** [b[i:]] *)
Definition slice_from (b : bytes) (i : nat) : bytes := skipn i b.

(** ** The [struct] module, for the formats the codec uses *)
Module pystruct.

(** [struct.pack('!nB', *vals)]: exactly [n] arguments, each in 0..255. *)
Definition pack_B (n : nat) (vals : list Z) : result bytes :=
  if negb (Nat.eqb (List.length vals) n) then Raise struct_error
  else if forallb (fun v => (0 <=? v) && (v <=? 255)) vals
       then Ok (map Z_to_byte vals)
       else Raise struct_error.

(** [struct.pack('!H', v)] *)
Definition pack_H (v : Z) : result bytes :=
  if (0 <=? v) && (v <=? 65535)
  then Ok [Z_to_byte (v / 256); Z_to_byte (v mod 256)]
  else Raise struct_error.

(** [struct.pack('!I', v)] *)
Definition pack_I (v : Z) : result bytes :=
  if (0 <=? v) && (v <=? 4294967295)
  then Ok [Z_to_byte (v / 16777216); Z_to_byte (v / 65536);
           Z_to_byte (v / 256); Z_to_byte v]
  else Raise struct_error.

(** [struct.unpack('!B', buff)[0]]: the buffer must hold exactly one byte. *)
Definition unpack_B (buff : bytes) : result Z :=
  match buff with
  | [b] => Ok (byte_to_Z b)
  | _ => Raise struct_error
  end.

(** [struct.unpack('!6B', buff)]: the buffer must hold exactly six bytes. *)
Definition unpack_6B (buff : bytes) : result (list Z) :=
  if Nat.eqb (List.length buff) 6 then Ok (map byte_to_Z buff)
  else Raise struct_error.

(** [struct.unpack_from('!B', buff, offset)[0]]: at least one byte from
    [offset] on. *)
Definition unpack_from_B (buff : bytes) (offset : nat) : result Z :=
  match skipn offset buff with
  | b :: _ => Ok (byte_to_Z b)
  | _ => Raise struct_error
  end.

(** [struct.unpack_from('!H', buff, offset)[0]]: at least two bytes from
    [offset] on, big endian. *)
Definition unpack_from_H (buff : bytes) (offset : nat) : result Z :=
  match skipn offset buff with
  | hi :: lo :: _ => Ok (256 * byte_to_Z hi + byte_to_Z lo)
  | _ => Raise struct_error
  end.

End pystruct.

(** ** Text forms: hexadecimal groups separated by colons *)

(** [s.split(':')] *)
Fixpoint split_colon (s : string) : list string :=
  match s with
  | EmptyString => [EmptyString]
  | String c rest =>
      if Ascii.eqb c ":" then EmptyString :: split_colon rest
      else match split_colon rest with
           | h :: t => String c h :: t
           | [] => [String c EmptyString]
           end
  end.

Definition hex_digit (c : ascii) : option Z :=
  let n := Z.of_nat (nat_of_ascii c) in
  if (48 <=? n) && (n <=? 57) then Some (n - 48)
  else if (97 <=? n) && (n <=? 102) then Some (n - 87)
  else if (65 <=? n) && (n <=? 70) then Some (n - 55)
  else None.

(** White space as [int] sees it in a string of characters below 256:
    tab to carriage return, the four separators 28-31, the space, and the
    two Latin-1 spaces 133 and 160. *)
Definition is_space (c : ascii) : bool :=
  let n := Z.of_nat (nat_of_ascii c) in
  ((9 <=? n) && (n <=? 13)) || ((28 <=? n) && (n <=? 31)) ||
  (n =? 32) || (n =? 133) || (n =? 160).

Fixpoint skip_spaces (s : string) : string :=
  match s with
  | EmptyString => EmptyString
  | String c rest => if is_space c then skip_spaces rest else s
  end.

(** A run of hexadecimal digits with single underscores between them; the
    run may not end with an underscore.  Gives the value and what follows
    the run. *)
Fixpoint hex_run (acc : Z) (prev_underscore : bool) (s : string)
  : option (Z * string) :=
  match s with
  | EmptyString => if prev_underscore then None else Some (acc, EmptyString)
  | String c rest =>
      if Ascii.eqb c "_"
      then if prev_underscore then None else hex_run acc true rest
      else match hex_digit c with
           | Some d => hex_run (16 * acc + d) false rest
           | None => if prev_underscore then None else Some (acc, s)
           end
  end.

(** What is left after an optional [0x] or [0X] prefix and the one
    underscore allowed after it. *)
Definition skip_hex_prefix (s : string) : string :=
  match s with
  | String "0" (String c rest) =>
      if Ascii.eqb c "x" || Ascii.eqb c "X"
      then match rest with
           | String "_" rest' => rest'
           | _ => rest
           end
      else s
  | _ => s
  end.

(** [int(s, 16)] for a string of characters below 256: leading white
    space, an optional sign, an optional [0x] prefix, at least one
    hexadecimal digit, single underscores between digits, trailing white
    space.  Anything else raises ValueError. *)
Definition int16 (s : string) : result Z :=
  let s := skip_spaces s in
  let (negative, s) :=
    match s with
    | String "+" rest => (false, rest)
    | String "-" rest => (true, rest)
    | _ => (false, s)
    end in
  let s := skip_hex_prefix s in
  match s with
  | EmptyString => Raise ValueError
  | String c _ =>
      match hex_digit c with
      | None => Raise ValueError
      | Some _ =>
          match hex_run 0 false s with
          | None => Raise ValueError
          | Some (v, rest) =>
              match skip_spaces rest with
              | EmptyString => Ok (if negative then - v else v)
              | _ => Raise ValueError
              end
          end
      end
  end.

Definition hex_char (d : Z) : ascii :=
  if d <? 10 then ascii_of_nat (Z.to_nat (48 + d))
  else ascii_of_nat (Z.to_nat (87 + d)).

(** ["%.2x" % n] for 0 <= n <= 255 *)
Definition hex2 (n : Z) : string :=
  String (hex_char (n / 16)) (String (hex_char (n mod 16)) EmptyString).

(** [':'.join(l)] *)
Definition join_colon (l : list string) : string := String.concat ":" l.

(** ** The python-openflow codec (pyof), as far as main.py calls it

    pyof is an external library.  The model follows its wire formats:
    [GenericType.pack]/[unpack] wrap the [struct] module and turn its
    errors into PackException/UnpackException; [DPID] calls [struct]
    directly, so that its errors stay [struct.error]. *)

(** [data] as main.py receives it: raw [bytes], or a [BinaryData] object,
    which has a [value] attribute holding the bytes;
    [BinaryData_None] is the [BinaryData()] whose value is [None]. *)
Inductive pydata : Type :=
| Raw (b : bytes)
| BinaryData (b : bytes)
| BinaryData_None.

(** [T().unpack(data)], returning the object: the interface
    [unpack_non_empty] relies on for its [desired_class].  [unpack] is
    the call on bytes, [unpack_None] the call on [None]. *)
Class Unpack (T : Type) := {
  unpack : bytes -> result T;
  unpack_None : result T
}.

Record UBInt16 : Type := mkUBInt16 { UBInt16_value : Z }.
Record DPID : Type := mkDPID { DPID_value : string }.

(** [UBInt16(v).pack()] *)
Definition UBInt16_pack (v : Z) : result bytes :=
  reraise struct_error PackException (pystruct.pack_H v).

(** [GenericType.unpack] at format [!H] *)
Definition UBInt16_unpack_at (buff : bytes) (offset : nat) : result Z :=
  reraise struct_error UnpackException (pystruct.unpack_from_H buff offset).

(** [GenericType.unpack] at format [!B] *)
Definition UBInt8_unpack_at (buff : bytes) (offset : nat) : result Z :=
  reraise struct_error UnpackException (pystruct.unpack_from_B buff offset).

(** [UBInt32(v).pack()] *)
Definition UBInt32_pack (v : Z) : result bytes :=
  reraise struct_error PackException (pystruct.pack_I v).

(** On [None], [struct.unpack_from] raises TypeError, which
    [GenericType.unpack] turns into UnpackException. *)
#[export] Instance UBInt16_Unpack : Unpack UBInt16 := {
  unpack := fun buff => v <- UBInt16_unpack_at buff 0 ;; Ok (mkUBInt16 v);
  unpack_None := Raise UnpackException
}.

(** [DPID(value).pack()]:
    [struct.pack('!8B', *[int(v, 16) for v in value.split(':')])] *)
Definition DPID_pack (value : string) : result bytes :=
  vals <- mapM int16 (split_colon value) ;;
  pystruct.pack_B 8 vals.

(** [DPID.unpack]: eight times [struct.unpack('!B', buff[begin:begin+1])],
    each byte printed with ["%.2x"], the eight joined with colons. *)
Fixpoint DPID_unpack_loop (n : nat) (buff : bytes) (begin : nat)
  : result (list string) :=
  match n with
  | O => Ok []
  | S n' =>
      number <- pystruct.unpack_B (slice buff begin (begin + 1)) ;;
      hexas <- DPID_unpack_loop n' buff (begin + 1) ;;
      Ok (hex2 number :: hexas)
  end.

(** On [None] the first slice [buff[begin:begin+1]] raises TypeError. *)
#[export] Instance DPID_Unpack : Unpack DPID := {
  unpack := fun buff =>
    hexas <- DPID_unpack_loop 8 buff 0 ;;
    Ok (mkDPID (join_colon hexas));
  unpack_None := Raise TypeError
}.

(** [HWAddress().pack(value)] for a textual MAC address *)
Definition HWAddress_pack (value : string) : result bytes :=
  vals <- mapM int16 (split_colon value) ;;
  reraise struct_error PackException (pystruct.pack_B 6 vals).

(** [HWAddress.unpack(buff, offset)] *)
Definition HWAddress_unpack_at (buff : bytes) (offset : nat) : result string :=
  unpacked_data <- reraise struct_error UnpackException
                     (pystruct.unpack_6B (slice buff offset (offset + 6))) ;;
  Ok (join_colon (map hex2 unpacked_data)).

(** [EtherType.LLDP] *)
Definition EtherType_LLDP : Z := 0x88CC.

(** [Ethernet]: destination, source, ether_type, data.  An [ether_type]
    that was never set is a [UBInt16()] whose value is [None].  The list
    of VLAN tags is not kept: main.py never reads it. *)
Record Ethernet : Type := mkEthernet {
  destination : string;
  source : string;
  ether_type : option Z;
  data : pydata
}.

(** [ethernet.pack()] with [ether_type] set to an integer and [data] to
    bytes *)
Definition Ethernet_pack (destination source : string) (ether_type : Z)
    (data : bytes) : result bytes :=
  d <- HWAddress_pack destination ;;
  s <- HWAddress_pack source ;;
  t <- UBInt16_pack ether_type ;;
  Ok (d ++ s ++ t ++ data).

(** The two tag protocol identifiers of 802.1Q: [EtherType.VLAN] and
    [EtherType.VLAN_QINQ], as two bytes. *)
Definition is_vlan_tpid (b : bytes) : bool :=
  match b with
  | [hi; lo] =>
      let v := 256 * byte_to_Z hi + byte_to_Z lo in
      (v =? 0x8100) || (v =? 0x88a8)
  | _ => false
  end.

(** [Ethernet._get_vlan_length(buff)]: four bytes for each tag found from
    offset 12 on.  Every round moves four bytes on, so the length of the
    buffer bounds the number of rounds. *)
Fixpoint vlan_length_loop (fuel : nat) (buff : bytes) (begin length : nat)
  : nat :=
  match fuel with
  | O => length
  | S fuel' =>
      if is_vlan_tpid (slice buff begin (begin + 2))
      then vlan_length_loop fuel' buff (begin + 4) (length + 4)
      else length
  end.

Definition get_vlan_length (buff : bytes) : nat :=
  vlan_length_loop (List.length buff) buff 12 0.

(** [ListOfVLAN.unpack(buff)]: one tag (identifier and control
    information, two bytes each) after the other until the buffer is
    used up. *)
Fixpoint ListOfVLAN_unpack (fuel : nat) (buff : bytes)
  : result (list (Z * Z)) :=
  match buff, fuel with
  | [], _ => Ok []
  | _, O => Ok []
  | _, S fuel' =>
      tpid <- UBInt16_unpack_at buff 0 ;;
      tci <- UBInt16_unpack_at buff 2 ;;
      rest <- ListOfVLAN_unpack fuel' (slice_from buff 4) ;;
      Ok ((tpid, tci) :: rest)
  end.

(** [Ethernet.unpack]: destination (6 bytes), source (6), the VLAN tags
    found by [get_vlan_length], ether_type (2), and [data] takes the
    rest.  On [None] the first slice of [_get_vlan_length] raises
    TypeError. *)
#[export] Instance Ethernet_Unpack : Unpack Ethernet := {
  unpack := fun buff =>
    let vlan_length := get_vlan_length buff in
    d <- HWAddress_unpack_at buff 0 ;;
    s <- HWAddress_unpack_at buff 6 ;;
    vlans <- ListOfVLAN_unpack vlan_length
               (slice buff 12 (12 + vlan_length)) ;;
    t <- UBInt16_unpack_at buff (12 + vlan_length) ;;
    Ok (mkEthernet d s (Some t)
          (BinaryData (slice_from buff (14 + vlan_length))));
  unpack_None := Raise TypeError
}.

(** *** LLDP: four TLVs, each with a 16-bit header holding a 7-bit type
    and a 9-bit length *)

Record TLVWithSubType : Type := mkTLVWithSubType {
  tlv_type : Z;
  sub_type : Z;
  sub_value : pydata
}.

Record GenericTLV : Type := mkGenericTLV {
  gtlv_type : Z;
  gtlv_value : bytes
}.

Record LLDP : Type := mkLLDP {
  chassis_id : TLVWithSubType;
  port_id : TLVWithSubType;
  ttl : GenericTLV;
  end_ : GenericTLV
}.

(** [LLDP()]: chassis_id = TLVWithSubType(1, 7), port_id =
    TLVWithSubType(2, 7), ttl = GenericTLV(3, UBInt16(120)),
    end = GenericTLV(0).  The sub value of a fresh TLV is a
    [BinaryData()], whose value is [None]. *)
Definition LLDP_new : LLDP :=
  mkLLDP (mkTLVWithSubType 1 7 BinaryData_None)
         (mkTLVWithSubType 2 7 BinaryData_None)
         (mkGenericTLV 3 [x00; x78])
         (mkGenericTLV 0 []).

(** [GenericTLV.header]: [((tlv_type & 127) << 9) | (length & 511)] *)
Definition TLV_header (tlv_type : Z) (length : nat) : Z :=
  Z.lor (Z.shiftl (Z.land tlv_type 127) 9) (Z.land (Z.of_nat length) 511).

(** [GenericTLV.pack]: header, then value *)
Definition GenericTLV_pack (tlv_type : Z) (value : bytes) : result bytes :=
  h <- UBInt16_pack (TLV_header tlv_type (List.length value)) ;;
  Ok (h ++ value).

(** [TLVWithSubType.pack]: the value is the sub type byte followed by the
    packed sub value *)
Definition TLVWithSubType_pack (tlv_type sub_type : Z) (sub_value : bytes)
  : result bytes :=
  st <- reraise struct_error PackException (pystruct.pack_B 1 [sub_type]) ;;
  GenericTLV_pack tlv_type (st ++ sub_value).

(** The class of the object that holds an integer: a plain Python [int],
    or one of the two pyof integers OpenFlow uses for port numbers. *)
Inductive int_class : Type := py_int | pyof_UBInt16 | pyof_UBInt32.

(** [sub_value.pack()] for an integer of the given class.  A plain [int]
    has no [pack] attribute. *)
Definition int_pack (c : int_class) (v : Z) : result bytes :=
  match c with
  | py_int => Raise AttributeError
  | pyof_UBInt16 => UBInt16_pack v
  | pyof_UBInt32 => UBInt32_pack v
  end.

(** [lldp.pack()] with the two sub values [execute] assigns:
    [DPID(switch.dpid)] and the port number as the interface holds it.
    Each TLV calls [pack] on its sub value. *)
Definition LLDP_pack (chassis_sub_value : string)
    (port_class : int_class) (port_sub_value : Z) : result bytes :=
  dpid <- DPID_pack chassis_sub_value ;;
  c <- TLVWithSubType_pack 1 7 dpid ;;
  port <- int_pack port_class port_sub_value ;;
  p <- TLVWithSubType_pack 2 7 port ;;
  t <- GenericTLV_pack 3 [x00; x78] ;;
  e <- GenericTLV_pack 0 [] ;;
  Ok (c ++ p ++ t ++ e).

(** [TLVWithSubType.unpack(buffer, offset)] *)
Definition TLVWithSubType_unpack_at (buffer : bytes) (offset : nat)
  : result TLVWithSubType :=
  header <- UBInt16_unpack_at (slice buffer offset (offset + 2)) 0 ;;
  let tlv_type := Z.shiftr header 9 in
  let length := Z.to_nat (Z.land header 511) in
  let begin := (offset + 2)%nat in
  let end_ := (offset + 2 + length)%nat in
  sub_type <- UBInt8_unpack_at (slice buffer begin (begin + 1)) 0 ;;
  Ok (mkTLVWithSubType tlv_type sub_type
        (BinaryData (slice buffer (begin + 1) end_))).

(** [GenericTLV.unpack(buff, offset)] *)
Definition GenericTLV_unpack_at (buff : bytes) (offset : nat)
  : result GenericTLV :=
  header <- UBInt16_unpack_at (slice buff offset (offset + 2)) 0 ;;
  let tlv_type := Z.shiftr header 9 in
  let length := Z.to_nat (Z.land header 511) in
  let begin := (offset + 2)%nat in
  let end_ := (offset + 2 + length)%nat in
  Ok (mkGenericTLV tlv_type (slice buff begin end_)).

Definition pydata_value (d : pydata) : bytes :=
  match d with
  | Raw b => b
  | BinaryData b => b
  | BinaryData_None => []
  end.

(** [get_size()] of an unpacked TLV: two header bytes plus the value held *)
Definition TLVWithSubType_size (t : TLVWithSubType) : nat :=
  (2 + (1 + List.length (pydata_value (sub_value t))))%nat.

Definition GenericTLV_size (t : GenericTLV) : nat :=
  (2 + List.length (gtlv_value t))%nat.

(** [GenericStruct.unpack] on an [LLDP]: an empty buffer, and [None],
    leave the four TLVs at their defaults; otherwise each TLV is read
    where the previous one ended.  No TLV type or sub type is checked. *)
#[export] Instance LLDP_Unpack : Unpack LLDP := {
  unpack := fun buff =>
    match buff with
    | [] => Ok LLDP_new
    | _ =>
        c <- TLVWithSubType_unpack_at buff 0 ;;
        let begin := TLVWithSubType_size c in
        p <- TLVWithSubType_unpack_at buff begin ;;
        let begin := (begin + TLVWithSubType_size p)%nat in
        t <- GenericTLV_unpack_at buff begin ;;
        let begin := (begin + GenericTLV_size t)%nat in
        e <- GenericTLV_unpack_at buff begin ;;
        Ok (mkLLDP c p t e)
    end;
  unpack_None := Ok LLDP_new
}.

(** *** OpenFlow messages: [ActionOutput] and [PacketOut] of v0x01 and v0x04 *)

Inductive of_family : Type := v0x01 | v0x04.

Record ActionOutput : Type := mkActionOutput {
  action_family : of_family;
  port : option Z
}.

Record PacketOut : Type := mkPacketOut {
  packet_out_family : of_family;
  po_data : bytes;
  actions : list ActionOutput
}.

(** [AO10()], [AO13()]: an output action whose port is not set yet *)
Definition ActionOutput_new (f : of_family) : ActionOutput :=
  mkActionOutput f None.

(** [PO10()], [PO13()]: empty data, empty action list *)
Definition PacketOut_new (f : of_family) : PacketOut :=
  mkPacketOut f [] [].

(** ** The controller's objects (kytos), read by main.py *)

(** [switch.connection]; [protocol_version] is [None] when the attribute
    chain [connection.protocol.version] has a missing link, and [Some v]
    when it holds the Python value [v] (itself an integer or [None]). *)
Record Connection : Type := mkConnection {
  conn_id : Z;
  protocol_version : option (option Z)
}.

(** [port_number] is the integer [interface.port_number] stands for, and
    [port_number_class] the class of the object that holds it. *)
Record Interface : Type := mkInterface {
  port_number : Z;
  port_number_class : int_class;
  address : string
}.

(** [interfaces] lists [switch.interfaces.values()] in iteration order. *)
Record Switch : Type := mkSwitch {
  id : string;
  dpid : string;
  is_connected : bool;
  connection : option Connection;
  interfaces : list Interface
}.

(** [controller.switches]: a dict from dpid to switch, in insertion order. *)
Record Controller : Type := mkController {
  switches : list (string * Switch)
}.

(** [controller.get_switch_by_dpid(dpid)]: [switches.get(dpid)], [None] on
    a miss. *)
Fixpoint assoc_get (l : list (string * Switch)) (key : string)
  : option Switch :=
  match l with
  | [] => None
  | (k, v) :: rest => if String.eqb k key then Some v else assoc_get rest key
  end.

Definition get_switch_by_dpid (c : Controller) (dpid : string)
  : option Switch :=
  assoc_get (switches c) dpid.

(** [{'id': ..., 'port': ...}] *)
Record endpoint : Type := mkEndpoint {
  ep_id : string;
  ep_port : Z
}.

(** The two [content] dicts main.py builds. *)
Inductive content : Type :=
| packet_out_content (destination : option Connection) (message : PacketOut)
| link_content (switch_a switch_b : endpoint).

Record KytosEvent : Type := mkKytosEvent {
  name : string;
  event_content : content
}.

(** The packet-in event handed to the listener: [event.source.switch],
    [event.message.in_port], [event.message.data]. *)
Record PacketInEvent : Type := mkPacketInEvent {
  source_switch : Switch;
  in_port : Z;
  message_data : pydata
}.

(** ** Computations that put events in a buffer and may raise

    The buffer is the list of events put so far, oldest first.  An
    exception leaves the buffer as it was when it was raised. *)

Definition Pub (A : Type) : Type :=
  list KytosEvent -> list KytosEvent * result A.

Definition pret {A} (a : A) : Pub A := fun buf => (buf, Ok a).

Definition pbind {A B} (m : Pub A) (k : A -> Pub B) : Pub B :=
  fun buf =>
    match m buf with
    | (buf', Ok a) => k a buf'
    | (buf', Raise e) => (buf', Raise e)
    end.

Definition lift {A} (r : result A) : Pub A := fun buf => (buf, r).

(** [buffer.put(event)] *)
Definition put (ev : KytosEvent) : Pub unit := fun buf => (buf ++ [ev], Ok tt).

Notation "x <-- m ;; k" := (pbind m (fun x => k))
  (at level 61, m at next level, right associativity) : py_scope.

(** [for x in l: body(x)] *)
Fixpoint for_each {A} (l : list A) (body : A -> Pub unit) : Pub unit :=
  match l with
  | [] => pret tt
  | x :: xs => _ <-- body x ;; for_each xs body
  end.

(** [v in l] for a value that is an integer or [None] and a list of
    integers *)
Definition py_in (v : option Z) (l : list Z) : bool :=
  match v with
  | Some z => existsb (Z.eqb z) l
  | None => false
  end.

(** Modelled from the spec: the module [constants] is not part of the
    sources at hand; the spec gives the fixed LLDP multicast address. *)
Definition LLDP_MULTICAST_MAC : string := "01:80:C2:00:00:0E".

(** ** main.py *)
Module Main.

(** The message classes imported at the top of main.py. *)
Definition AO10 : of_family := v0x01.
Definition PO10 : of_family := v0x01.
Definition AO13 : of_family := v0x04.
Definition PO13 : of_family := v0x04.

(** [version == n] for a version that is an integer or [None] *)
Definition version_eqb (version : option Z) (n : Z) : bool :=
  match version with
  | Some v => Z.eqb v n
  | None => false
  end.

(** [build_lldp_packet_out(version, port_number, data)], lines 104-136.
    The [log.info] of the unsupported branch is not modelled. *)
Definition build_lldp_packet_out (version : option Z) (port_number : Z)
    (data : bytes) : option PacketOut :=
  let classes :=
    if version_eqb version 0x01 then Some (AO10, PO10)
    else if version_eqb version 0x04 then Some (AO13, PO13)
    else None in
  match classes with
  | None => None
  | Some (action_output_class, packet_out_class) =>
      let output_action := ActionOutput_new action_output_class in
      let output_action :=
        mkActionOutput (action_family output_action) (Some port_number) in
      let packet_out := PacketOut_new packet_out_class in
      let packet_out :=
        mkPacketOut (packet_out_family packet_out) data (actions packet_out) in
      let packet_out :=
        mkPacketOut (packet_out_family packet_out) (po_data packet_out)
                    (actions packet_out ++ [output_action]) in
      Some packet_out
  end.

(** [unpack_non_empty(desired_class, data)], lines 138-160 *)
Definition unpack_non_empty (desired_class : Type) `{Unpack desired_class}
    (data : pydata) : result desired_class :=
  let data : option bytes :=
    match data with
    | BinaryData value => Some value
    | BinaryData_None => None
    | Raw b => Some b
    end in
  match data with
  | Some b => unpack b
  | None => unpack_None
  end.

(** [switch.connection.protocol.version]; AttributeError when a link of
    the chain is missing. *)
Definition connection_protocol_version (switch : Switch)
  : result (option Z) :=
  match connection switch with
  | None => Raise AttributeError
  | Some c =>
      match protocol_version c with
      | None => Raise AttributeError
      | Some v => Ok v
      end
  end.

(** Lines 27-30: the version, or [None] on AttributeError. *)
Definition of_version_of (switch : Switch) : result (option Z) :=
  match connection_protocol_version switch with
  | Raise AttributeError => Ok None
  | r => r
  end.

(** Body of the inner loop, lines 36-63.  The [log.debug] is not
    modelled. *)
Definition execute_interface (switch : Switch) (of_version : option Z)
    (interface : Interface) : Pub unit :=
  if port_number interface =? 65534 then pret tt
  else
    lldp_pack <-- lift (LLDP_pack (dpid switch)
                          (port_number_class interface)
                          (port_number interface)) ;;
    ethernet_pack <-- lift (Ethernet_pack LLDP_MULTICAST_MAC
                              (address interface) EtherType_LLDP lldp_pack) ;;
    let packet_out :=
      build_lldp_packet_out of_version (port_number interface)
                            ethernet_pack in
    match packet_out with
    | Some packet_out =>
        let name := "diraol/of_lldp.messages.out.ofpt_packet_out"%string in
        let content := packet_out_content (connection switch) packet_out in
        let event_out := mkKytosEvent name content in
        put event_out
    | None => pret tt
    end.

(** Body of the outer loop, lines 27-63 *)
Definition execute_switch (switch : Switch) : Pub unit :=
  of_version <-- lift (of_version_of switch) ;;
  if negb (is_connected switch && py_in of_version [0x01; 0x04])
  then pret tt
  else for_each (interfaces switch) (execute_interface switch of_version).

(** [execute(self)], lines 23-63; the buffer is
    [controller.buffers.msg_out]. *)
Definition execute (controller : Controller) : Pub unit :=
  let switches := map snd (switches controller) in
  for_each switches execute_switch.

(** [switch_b.id], AttributeError when the lookup returned [None] *)
Definition getattr_id (switch : option Switch) : result string :=
  match switch with
  | Some s => Ok (id s)
  | None => Raise AttributeError
  end.

(** [ethernet.ether_type == EtherType.LLDP] *)
Definition ether_type_is_LLDP (ethernet : Ethernet) : bool :=
  match ether_type ethernet with
  | Some t => t =? EtherType_LLDP
  | None => false
  end.

(** [notify_uplink_detected(self, event)], lines 66-97; the buffer is
    [controller.buffers.app].  In the link content, [port_b] stands for
    the value of the unpacked [UBInt16]. *)
Definition notify_uplink_detected (controller : Controller)
    (event : PacketInEvent) : Pub unit :=
  ethernet <-- lift (unpack_non_empty Ethernet (message_data event)) ;;
  if ether_type_is_LLDP ethernet then
    match (lldp <- unpack_non_empty LLDP (data ethernet) ;;
           dpid <- unpack_non_empty DPID (sub_value (chassis_id lldp)) ;;
           Ok (lldp, dpid)) with
    | Raise struct_error => pret tt
    | Raise e => lift (Raise e)
    | Ok (lldp, dpid) =>
        let switch_a := source_switch event in
        let port_a := in_port event in
        let switch_b := get_switch_by_dpid controller (DPID_value dpid) in
        port_b <-- lift (unpack_non_empty UBInt16
                           (sub_value (port_id lldp))) ;;
        let name := "diraol/of_lldp.switch.link"%string in
        content <-- lift (switch_b_id <- getattr_id switch_b ;;
                          Ok (link_content
                                (mkEndpoint (id switch_a) port_a)
                                (mkEndpoint switch_b_id
                                            (UBInt16_value port_b)))) ;;
        let event_out := mkKytosEvent name content in
        put event_out
    end
  else pret tt.

End Main.

(** * Predicates and sample data used in the statements *)

Import Main.

Definition switch_down : Switch :=
  mkSwitch "00:00:00:00:00:00:00:09" "00:00:00:00:00:00:00:09" false
           (Some (mkConnection 9 (Some (Some 0x04))))
           [mkInterface 1 pyof_UBInt16 "aa:bb:cc:dd:ee:09"].

(** Every output action of every packet-out event in the buffer targets a
    port other than 65534. *)
Definition no_local_port (ev : KytosEvent) : Prop :=
  match event_content ev with
  | packet_out_content _ message =>
      Forall (fun a => port a <> Some 65534) (actions message)
  | link_content _ _ => True
  end.

Definition switch_up : Switch :=
  mkSwitch "00:00:00:00:00:00:00:01" "00:00:00:00:00:00:00:01" true
           (Some (mkConnection 1 (Some (Some 0x04))))
           [mkInterface 3 pyof_UBInt16 "aa:bb:cc:dd:ee:01";
            mkInterface 65534 pyof_UBInt16 "aa:bb:cc:dd:ee:02"].

Definition switch_no_version : Switch :=
  mkSwitch "00:00:00:00:00:00:00:07" "00:00:00:00:00:00:00:07" true
           (Some (mkConnection 7 None))
           [mkInterface 1 pyof_UBInt16 "aa:bb:cc:dd:ee:07"].


Definition frame_ipv4 : bytes :=
  [x01; x02; x03; x04; x05; x06; xaa; xbb; xcc; xdd; xee; x01;
   x08; x00; x45; x00].

(** The probe [switch_up] sends out of its port 3. *)
Definition probe_frame : bytes :=
  [x01; x80; xc2; x00; x00; x0e; xaa; xbb; xcc; xdd; xee; x01; x88; xcc;
   x02; x09; x07; x00; x00; x00; x00; x00; x00; x00; x01;
   x04; x03; x07; x00; x03;
   x06; x02; x00; x78;
   x00; x00].

Definition probe_lldp : LLDP :=
  mkLLDP (mkTLVWithSubType 1 7
            (BinaryData [x00; x00; x00; x00; x00; x00; x00; x01]))
         (mkTLVWithSubType 2 7 (BinaryData [x00; x03]))
         (mkGenericTLV 3 [x00; x78])
         (mkGenericTLV 0 []).

Definition probe_ethernet : Ethernet :=
  mkEthernet "01:80:c2:00:00:0e" "aa:bb:cc:dd:ee:01" (Some EtherType_LLDP)
             (BinaryData (skipn 14 probe_frame)).

Definition inventory_up : Controller :=
  mkController [("00:00:00:00:00:00:00:01"%string, switch_up)].

Definition event_loop_back : PacketInEvent :=
  mkPacketInEvent switch_up 3 (BinaryData probe_frame).

(** An LLDP frame whose first TLV announces 511 bytes of value in a
    46-byte payload. *)
Definition frame_truncated_tlv : bytes :=
  [x01; x80; xc2; x00; x00; x0e; xaa; xbb; xcc; xdd; xee; x01; x88; xcc]
    ++ repeat xff 46.

(** The canonical text of a dpid or MAC address given by its bytes: two
    lower-case hexadecimal digits per byte, joined with colons.  This is
    the form [DPID.unpack] and [HWAddress.unpack] print. *)
Definition hex_text (bs : bytes) : string :=
  join_colon (map hex2 (map byte_to_Z bs)).

(** The LLDP bytes of a probe: chassis TLV (type 1, 9 bytes: sub type 7
    and the dpid), port TLV (type 2: sub type 7 and the packed port),
    TTL TLV (type 3, 120 seconds), end TLV. *)
Definition probe_lldp_bytes (dpid_bytes port_bytes : bytes) : bytes :=
  [x02; x09; x07] ++ dpid_bytes ++
  [x04; Z_to_byte (Z.of_nat (S (List.length port_bytes))); x07] ++
  port_bytes ++ [x06; x02; x00; x78; x00; x00].

(** ** Predicates for the properties beyond the claims *)

(** A computation whose effect on the buffer is to append, and whose
    appended events and outcome do not depend on what the buffer held. *)
Definition framed {A} (m : Pub A) : Prop :=
  forall buf, m buf = (buf ++ fst (m []), snd (m [])).

(** The version [execute] works with for a switch (lines 27-30). *)
Definition negotiated_version (switch : Switch) : option Z :=
  match of_version_of switch with
  | Ok v => v
  | Raise _ => None
  end.

(** The filter of line 32. *)
Definition eligible (switch : Switch) : bool :=
  is_connected switch && py_in (negotiated_version switch) [0x01; 0x04].

(** The ports of a switch that pass the filter of line 38, in iteration
    order. *)
Definition probed_ports (switch : Switch) : list Z :=
  filter (fun p => negb (p =? 65534)) (map port_number (interfaces switch)).

(** Where a packet-out event goes: its destination and the ports of its
    output actions. *)
Definition probe_target (ev : KytosEvent)
  : option Connection * list (option Z) :=
  match event_content ev with
  | packet_out_content destination message =>
      (destination, map port (actions message))
  | link_content _ _ => (None, [])
  end.

(** The targets a full tick reaches: for each eligible switch of the
    inventory, in order, each of its probed ports, in order. *)
Definition expected_targets (controller : Controller)
  : list (option Connection * list (option Z)) :=
  flat_map (fun switch =>
              if eligible switch
              then map (fun p => (connection switch, [Some p]))
                       (probed_ports switch)
              else [])
           (map snd (switches controller)).

(** [ev] is the probe command of [interface] on [switch]: the packet-out
    event, addressed to the switch's connection, of message family [f],
    with one output action of family [f] on the interface's port. *)
Definition is_probe_for (switch : Switch) (f : of_family)
    (interface : Interface) (ev : KytosEvent) : Prop :=
  exists frame,
    ev = mkKytosEvent "diraol/of_lldp.messages.out.ofpt_packet_out"
           (packet_out_content (connection switch)
              (mkPacketOut f frame
                 [mkActionOutput f (Some (port_number interface))])).

(** The message family of a supported version. *)
Definition family_of (version : option Z) : option of_family :=
  if version_eqb version 0x01 then Some v0x01
  else if version_eqb version 0x04 then Some v0x04
  else None.

(** [ev] is a probe command of an eligible switch of the inventory and of
    one of its interfaces other than the local port. *)
Definition is_probe_of (controller : Controller) (ev : KytosEvent) : Prop :=
  exists key switch f interface,
    In (key, switch) (switches controller) /\
    eligible switch = true /\
    family_of (negotiated_version switch) = Some f /\
    In interface (interfaces switch) /\
    port_number interface <> 65534 /\
    is_probe_for switch f interface ev.

(** The bytes of a probe frame: the LLDP multicast address, the MAC of the
    probing interface, the LLDP ether type, then the four TLVs with the
    dpid bytes and the packed port. *)
Definition probe_frame_bytes (dpid_bytes mac port_bytes : bytes) : bytes :=
  [x01; x80; xc2; x00; x00; x0e] ++ mac ++ [x88; xcc] ++
  probe_lldp_bytes dpid_bytes port_bytes.


(** What the listener reads from the first two bytes of a packed port: the
    port itself when it was held as a [UBInt16], its upper half when it
    was held as a [UBInt32]. *)
Definition port_read_back (c : int_class) (v : Z) : Z :=
  match c with
  | pyof_UBInt32 => v / 65536
  | _ => v
  end.

(** [switch_up] with its port 3 held as a [UBInt32], as OpenFlow 1.3
    numbers ports. *)
Definition switch_up32 : Switch :=
  mkSwitch "00:00:00:00:00:00:00:01" "00:00:00:00:00:00:00:01" true
           (Some (mkConnection 1 (Some (Some 0x04))))
           [mkInterface 3 pyof_UBInt32 "aa:bb:cc:dd:ee:01"].

(** An LLDP frame of another agent: the chassis id is a MAC address (sub
    type 4, six bytes). *)
Definition frame_mac_chassis : bytes :=
  [x01; x80; xc2; x00; x00; x0e; x00; x11; x22; x33; x44; x55; x88; xcc;
   x02; x07; x04; x00; x11; x22; x33; x44; x55;
   x04; x03; x07; x00; x01;
   x06; x02; x00; x78;
   x00; x00].

Definition ethernet_mac_chassis : Ethernet :=
  mkEthernet "01:80:c2:00:00:0e" "00:11:22:33:44:55" (Some EtherType_LLDP)
             (BinaryData (skipn 14 frame_mac_chassis)).

Definition lldp_mac_chassis : LLDP :=
  mkLLDP (mkTLVWithSubType 1 4
            (BinaryData [x00; x11; x22; x33; x44; x55]))
         (mkTLVWithSubType 2 7 (BinaryData [x00; x01]))
         (mkGenericTLV 3 [x00; x78])
         (mkGenericTLV 0 []).

(** An LLDP frame with the dpid of [switch_up] and a port id value of one
    byte. *)
Definition frame_short_port : bytes :=
  [x01; x80; xc2; x00; x00; x0e; xaa; xbb; xcc; xdd; xee; x01; x88; xcc;
   x02; x09; x07; x00; x00; x00; x00; x00; x00; x00; x01;
   x04; x02; x07; x03;
   x06; x02; x00; x78;
   x00; x00].

Definition ethernet_short_port : Ethernet :=
  mkEthernet "01:80:c2:00:00:0e" "aa:bb:cc:dd:ee:01" (Some EtherType_LLDP)
             (BinaryData (skipn 14 frame_short_port)).

Definition lldp_short_port : LLDP :=
  mkLLDP (mkTLVWithSubType 1 7
            (BinaryData [x00; x00; x00; x00; x00; x00; x00; x01]))
         (mkTLVWithSubType 2 7 (BinaryData [x03]))
         (mkGenericTLV 3 [x00; x78])
         (mkGenericTLV 0 []).

(** An LLDP frame of another agent: the chassis id is the nine-letter
    name "switch-01" (sub type 7), the port id the interface name "e1"
    (sub type 5). *)
Definition frame_named_chassis : bytes :=
  [x01; x80; xc2; x00; x00; x0e; x00; x11; x22; x33; x44; x55; x88; xcc;
   x02; x0a; x07; x73; x77; x69; x74; x63; x68; x2d; x30; x31;
   x04; x03; x05; x65; x31;
   x06; x02; x00; x78;
   x00; x00].

Definition ethernet_named_chassis : Ethernet :=
  mkEthernet "01:80:c2:00:00:0e" "00:11:22:33:44:55" (Some EtherType_LLDP)
             (BinaryData (skipn 14 frame_named_chassis)).

Definition lldp_named_chassis : LLDP :=
  mkLLDP (mkTLVWithSubType 1 7
            (BinaryData [x73; x77; x69; x74; x63; x68; x2d; x30; x31]))
         (mkTLVWithSubType 2 5 (BinaryData [x65; x31]))
         (mkGenericTLV 3 [x00; x78])
         (mkGenericTLV 0 []).

(** A switch whose dpid is spelled with an upper-case digit. *)
Definition switch_upper_case : Switch :=
  mkSwitch "00:00:00:00:00:00:00:0A" "00:00:00:00:00:00:00:0A" true
           (Some (mkConnection 10 (Some (Some 0x01))))
           [mkInterface 1 pyof_UBInt16 "aa:bb:cc:dd:ee:0a"].

(** * Properties *)

Arguments byte_to_Z : simpl never.
Arguments Z_to_byte : simpl never.
Arguments hex2 : simpl never.

(** ** Loops *)

Section Loops.
Context {A : Type} (body : A -> Pub unit).

Lemma for_each_nil buf : for_each [] body buf = (buf, Ok tt).
Proof. reflexivity. Qed.

Lemma for_each_cons x xs buf :
  for_each (x :: xs) body buf =
  match body x buf with
  | (buf', Ok _) => for_each xs body buf'
  | (buf', Raise e) => (buf', Raise e)
  end.
Proof. reflexivity. Qed.

(** An iteration that puts nothing and returns can be left out. *)
Lemma for_each_skip pre x post buf :
  (forall b, body x b = (b, Ok tt)) ->
  for_each (pre ++ x :: post) body buf = for_each (pre ++ post) body buf.
Proof.
  intros Hx. revert buf.
  induction pre as [|y pre IH]; intros buf; simpl app.
  - rewrite for_each_cons, Hx. reflexivity.
  - rewrite !for_each_cons.
    destruct (body y buf) as [buf' [[]|e]]; [apply IH | reflexivity].
Qed.

(** Once an iteration raises, the rest of the list is never visited. *)
Lemma for_each_raise pre post buf buf' e :
  for_each pre body buf = (buf', Raise e) ->
  for_each (pre ++ post) body buf = (buf', Raise e).
Proof.
  revert buf.
  induction pre as [|y pre IH]; intros buf H; simpl app.
  - discriminate H.
  - rewrite for_each_cons in *.
    destruct (body y buf) as [buf1 [[]|e1]]; [apply IH; exact H | exact H].
Qed.


(** A property of the buffer kept by every iteration is kept by the
    loop. *)
Lemma for_each_invariant (P : list KytosEvent -> Prop) l :
  (forall x b, In x l -> P b -> P (fst (body x b))) ->
  forall buf, P buf -> P (fst (for_each l body buf)).
Proof.
  induction l as [|y l IH]; intros Hb buf HP.
  - exact HP.
  - rewrite for_each_cons.
    pose proof (Hb y buf (or_introl eq_refl) HP) as Hy.
    destruct (body y buf) as [buf1 [[]|e1]]; simpl in Hy.
    + apply IH; [intros x b Hin; apply Hb; right; exact Hin | exact Hy].
    + exact Hy.
Qed.
End Loops.

(** ** The eligibility filter of the Prober *)

Lemma of_version_of_total switch : exists v, of_version_of switch = Ok v.
Proof.
  unfold of_version_of, connection_protocol_version.
  destruct (connection switch) as [c|]; [|eexists; reflexivity].
  destruct (protocol_version c) as [v|]; eexists; reflexivity.
Qed.

Lemma py_in_supported v :
  py_in v [0x01; 0x04] = true <-> v = Some 1 \/ v = Some 4.
Proof.
  destruct v as [z|]; simpl.
  - rewrite !orb_true_iff, !Z.eqb_eq. split.
    + intros [->|[->|H]]; [left | right | discriminate H]; reflexivity.
    + intros [H|H]; inversion H; auto.
  - split; [discriminate | intros [H|H]; discriminate H].
Qed.

Lemma execute_switch_skipped switch v :
  of_version_of switch = Ok v ->
  is_connected switch = false \/ (v <> Some 1 /\ v <> Some 4) ->
  forall buf, execute_switch switch buf = (buf, Ok tt).
Proof.
  intros Hv Hne buf. unfold execute_switch, pbind, lift. rewrite Hv.
  assert (is_connected switch && py_in v [1; 4] = false) as ->.
  { destruct Hne as [->|[H1 H4]]; [reflexivity|].
    apply andb_false_intro2.
    destruct (py_in v [1; 4]) eqn:E; [|reflexivity].
    apply py_in_supported in E. tauto. }
  reflexivity.
Qed.

Lemma execute_without pre key switch post buf :
  (forall b, execute_switch switch b = (b, Ok tt)) ->
  execute (mkController (pre ++ (key, switch) :: post)) buf =
  execute (mkController (pre ++ post)) buf.
Proof.
  intros H. unfold execute. simpl switches.
  rewrite !map_app. simpl map. apply for_each_skip. exact H.
Qed.

(** C2. A switch that is not connected, or whose negotiated version is
    not 0x01 or 0x04, gets no probe command in a tick, whatever its
    interfaces: its iteration leaves the buffer as it is and returns
    normally, and the whole tick runs exactly as if the switch were not in
    the inventory. *)
Theorem C2_ineligible_switch_is_skipped :
  forall switch v,
    of_version_of switch = Ok v ->
    is_connected switch = false \/ (v <> Some 0x01 /\ v <> Some 0x04) ->
    (forall buf, execute_switch switch buf = (buf, Ok tt)) /\
    (forall pre key post buf,
        execute (mkController (pre ++ (key, switch) :: post)) buf =
        execute (mkController (pre ++ post)) buf).
Proof.
  intros switch v Hv Hne.
  pose proof (execute_switch_skipped switch v Hv Hne) as Hskip.
  split; [exact Hskip|].
  intros. apply execute_without. exact Hskip.
Qed.

Lemma C2_witness :
  of_version_of switch_down = Ok (Some 0x04) /\
  (is_connected switch_down = false \/
   (Some 0x04 <> Some 0x01 /\ Some 0x04 <> Some 0x04)) /\
  (forall buf, execute_switch switch_down buf = (buf, Ok tt)) /\
  (forall pre key post buf,
      execute (mkController (pre ++ (key, switch_down) :: post)) buf =
      execute (mkController (pre ++ post)) buf).
Proof.
  split; [reflexivity|]. split; [left; reflexivity|].
  apply (C2_ineligible_switch_is_skipped switch_down (Some 0x04));
    [reflexivity | left; reflexivity].
Defined.

(** ** The reserved port *)

Lemma build_lldp_packet_out_actions version port_number data packet_out :
  build_lldp_packet_out version port_number data = Some packet_out ->
  po_data packet_out = data /\
  exists f, actions packet_out = [mkActionOutput f (Some port_number)].
Proof.
  unfold build_lldp_packet_out.
  destruct (version_eqb version 1).
  - intros H. inversion H. simpl. eauto.
  - destruct (version_eqb version 4); intros H; inversion H. simpl. eauto.
Qed.

Lemma execute_interface_no_local_port switch of_version interface buf :
  Forall no_local_port buf ->
  Forall no_local_port
         (fst (execute_interface switch of_version interface buf)).
Proof.
  intros Hbuf. unfold execute_interface.
  destruct (port_number interface =? 65534) eqn:Hp; [exact Hbuf|].
  apply Z.eqb_neq in Hp.
  unfold pbind, lift.
  destruct (LLDP_pack _ _) as [l|e]; [|exact Hbuf].
  destruct (Ethernet_pack _ _ _ _) as [f|e]; [|exact Hbuf].
  destruct (build_lldp_packet_out _ _ _) as [po|] eqn:Hb; [|exact Hbuf].
  apply build_lldp_packet_out_actions in Hb. destruct Hb as [_ [fam Ha]].
  unfold put. simpl fst. apply Forall_app. split; [exact Hbuf|].
  constructor; [|constructor].
  unfold no_local_port. simpl. rewrite Ha.
  constructor; [|constructor]. simpl. congruence.
Qed.

Lemma execute_switch_no_local_port switch buf :
  Forall no_local_port buf ->
  Forall no_local_port (fst (execute_switch switch buf)).
Proof.
  intros Hbuf. unfold execute_switch, pbind, lift.
  destruct (of_version_of switch) as [v|e]; [|exact Hbuf].
  destruct (negb _); [exact Hbuf|].
  apply for_each_invariant; [|exact Hbuf].
  intros x b _. apply execute_interface_no_local_port.
Qed.

(** C3. An interface whose port number is 65534 is never probed: its
    iteration builds and puts nothing and returns normally, for every
    owning switch and every version; a switch's iteration runs exactly as
    if the interface were not there; and no packet-out put during a tick
    has an output action on port 65534. *)
Theorem C3_local_port_is_never_probed :
  forall interface,
    port_number interface = 65534 ->
    (forall switch of_version buf,
        execute_interface switch of_version interface buf = (buf, Ok tt)) /\
    (forall switch of_version pre post buf,
        for_each (pre ++ interface :: post)
                 (execute_interface switch of_version) buf =
        for_each (pre ++ post) (execute_interface switch of_version) buf) /\
    (forall controller,
        Forall no_local_port (fst (execute controller []))).
Proof.
  intros interface Hp.
  assert (forall switch of_version buf,
             execute_interface switch of_version interface buf = (buf, Ok tt))
    as Hskip.
  { intros. unfold execute_interface. rewrite Hp. reflexivity. }
  split; [exact Hskip|]. split.
  - intros. apply for_each_skip. intros b. apply Hskip.
  - intros controller. unfold execute.
    apply for_each_invariant; [|constructor].
    intros x b _. apply execute_switch_no_local_port.
Qed.

Lemma C3_witness :
  port_number (mkInterface 65534 pyof_UBInt16 "aa:bb:cc:dd:ee:02") = 65534 /\
  execute_interface switch_up (Some 0x04)
                    (mkInterface 65534 pyof_UBInt16 "aa:bb:cc:dd:ee:02") []
  = ([], Ok tt).
Proof.
  split; [reflexivity|].
  apply (C3_local_port_is_never_probed
           (mkInterface 65534 pyof_UBInt16 "aa:bb:cc:dd:ee:02") eq_refl).
Defined.

(** ** The command builder *)

(** C4. For a version other than 0x01 and 0x04 ([None] included)
    [build_lldp_packet_out] returns [None], for every port number and
    payload; the function is total, so nothing is raised.  For 0x01 and for
    0x04 it returns the packet-out of that version whose data is the
    payload and whose action list is exactly one output action, of the same
    version, on the given port. *)
Theorem C4_build_lldp_packet_out :
  forall version port_number data,
    (version <> Some 0x01 -> version <> Some 0x04 ->
     build_lldp_packet_out version port_number data = None) /\
    build_lldp_packet_out (Some 0x01) port_number data =
      Some (mkPacketOut v0x01 data [mkActionOutput v0x01 (Some port_number)]) /\
    build_lldp_packet_out (Some 0x04) port_number data =
      Some (mkPacketOut v0x04 data [mkActionOutput v0x04 (Some port_number)]).
Proof.
  intros version port_number data. split; [|split; reflexivity].
  intros H1 H4. unfold build_lldp_packet_out.
  destruct version as [z|]; [|reflexivity]. simpl version_eqb.
  destruct (Z.eqb_spec z 1) as [->|_]; [congruence|].
  destruct (Z.eqb_spec z 4) as [->|_]; [congruence|].
  reflexivity.
Qed.

Lemma C4_witness :
  (None <> Some 0x01 -> None <> Some 0x04 ->
   build_lldp_packet_out None 3 [x01; x02] = None) /\
  (Some 0x05 <> Some 0x01 -> Some 0x05 <> Some 0x04 ->
   build_lldp_packet_out (Some 0x05) 3 [x01; x02] = None) /\
  build_lldp_packet_out (Some 0x04) 3 [x01; x02] =
    Some (mkPacketOut v0x04 [x01; x02] [mkActionOutput v0x04 (Some 3)]).
Proof.
  split; [|split].
  - apply (C4_build_lldp_packet_out None 3 [x01; x02]).
  - apply (C4_build_lldp_packet_out (Some 0x05) 3 [x01; x02]).
  - apply (C4_build_lldp_packet_out (Some 0x04) 3 [x01; x02]).
Defined.

(** ** A connection without a protocol version *)

(** C9. When [switch.connection.protocol.version] cannot be read (no
    connection, or a link of the attribute chain is missing), the Prober
    takes the version to be [None]; the switch then fails the filter, gets
    no probe command whatever its connectivity and interfaces, and the
    tick goes on as if the switch were not in the inventory. *)
Theorem C9_missing_version_is_unknown :
  forall switch,
    (connection switch = None \/
     exists c, connection switch = Some c /\ protocol_version c = None) ->
    connection_protocol_version switch = Raise AttributeError /\
    of_version_of switch = Ok None /\
    (forall buf, execute_switch switch buf = (buf, Ok tt)) /\
    (forall pre key post buf,
        execute (mkController (pre ++ (key, switch) :: post)) buf =
        execute (mkController (pre ++ post)) buf).
Proof.
  intros switch H.
  assert (connection_protocol_version switch = Raise AttributeError) as Hc.
  { unfold connection_protocol_version.
    destruct H as [->|[c [-> ->]]]; reflexivity. }
  assert (of_version_of switch = Ok None) as Hv.
  { unfold of_version_of. rewrite Hc. reflexivity. }
  assert (forall buf, execute_switch switch buf = (buf, Ok tt)) as Hskip.
  { apply (execute_switch_skipped switch None Hv).
    right. split; discriminate. }
  repeat split; try assumption.
  intros. apply execute_without. exact Hskip.
Qed.

Lemma C9_witness :
  (connection switch_no_version = None \/
   exists c, connection switch_no_version = Some c /\
             protocol_version c = None) /\
  of_version_of switch_no_version = Ok None /\
  execute (mkController [("00:00:00:00:00:00:00:07"%string,
                          switch_no_version)]) [] = ([], Ok tt).
Proof.
  assert (connection switch_no_version = None \/
          exists c, connection switch_no_version = Some c /\
                    protocol_version c = None) as H.
  { right. exists (mkConnection 7 None). split; reflexivity. }
  split; [exact H|].
  destruct (C9_missing_version_is_unknown switch_no_version H)
    as [_ [Hv [_ Hex]]].
  split; [exact Hv|].
  exact (Hex [] "00:00:00:00:00:00:00:07"%string [] []).
Defined.

(** ** Exceptions during a tick *)






(** ** The Correlator *)

Lemma ether_type_is_LLDP_iff ethernet :
  ether_type_is_LLDP ethernet = true <->
  ether_type ethernet = Some EtherType_LLDP.
Proof.
  unfold ether_type_is_LLDP. destruct (ether_type ethernet) as [t|].
  - rewrite Z.eqb_eq. split; [intros ->; reflexivity | congruence].
  - split; discriminate.
Qed.

(** C5. A frame that unpacks to an Ethernet header whose ether type is not
    LLDP puts no event in the app buffer and the listener returns
    normally, whatever the bytes after the header. *)
Theorem C5_other_ether_type_is_ignored :
  forall controller event ethernet buf,
    unpack_non_empty Ethernet (message_data event) = Ok ethernet ->
    ether_type ethernet <> Some EtherType_LLDP ->
    notify_uplink_detected controller event buf = (buf, Ok tt).
Proof.
  intros controller event ethernet buf Hu Ht.
  unfold notify_uplink_detected, pbind, lift. rewrite Hu.
  destruct (ether_type_is_LLDP ethernet) eqn:E; [|reflexivity].
  apply ether_type_is_LLDP_iff in E. contradiction.
Qed.

Lemma C5_witness :
  unpack_non_empty Ethernet (BinaryData frame_ipv4) =
    Ok (mkEthernet "01:02:03:04:05:06" "aa:bb:cc:dd:ee:01" (Some 0x0800)
                   (BinaryData [x45; x00])) /\
  Some 0x0800 <> Some EtherType_LLDP /\
  notify_uplink_detected (mkController [])
    (mkPacketInEvent switch_up 7 (BinaryData frame_ipv4)) [] = ([], Ok tt).
Proof.
  assert (Some 0x0800 <> Some EtherType_LLDP) as Hne by discriminate.
  split; [reflexivity|]. split; [exact Hne|].
  apply (C5_other_ether_type_is_ignored (mkController [])
           (mkPacketInEvent switch_up 7 (BinaryData frame_ipv4))
           (mkEthernet "01:02:03:04:05:06" "aa:bb:cc:dd:ee:01" (Some 0x0800)
                       (BinaryData [x45; x00])) [] eq_refl Hne).
Defined.

(** The listener after a successful decode of the Ethernet header, the
    LLDP structure, the dpid and the port. *)
Lemma notify_decoded controller event ethernet lldp dpid port_b buf :
  unpack_non_empty Ethernet (message_data event) = Ok ethernet ->
  ether_type ethernet = Some EtherType_LLDP ->
  unpack_non_empty LLDP (data ethernet) = Ok lldp ->
  unpack_non_empty DPID (sub_value (chassis_id lldp)) = Ok dpid ->
  unpack_non_empty UBInt16 (sub_value (port_id lldp)) = Ok port_b ->
  notify_uplink_detected controller event buf =
  match get_switch_by_dpid controller (DPID_value dpid) with
  | Some switch_b =>
      (buf ++ [mkKytosEvent "diraol/of_lldp.switch.link"
                 (link_content
                    (mkEndpoint (id (source_switch event)) (in_port event))
                    (mkEndpoint (id switch_b) (UBInt16_value port_b)))],
       Ok tt)
  | None => (buf, Raise AttributeError)
  end.
Proof.
  intros He Ht Hl Hd Hp.
  unfold notify_uplink_detected, pbind, lift. rewrite He.
  apply ether_type_is_LLDP_iff in Ht. rewrite Ht, Hl. cbn [rbind].
  rewrite Hd. cbn [rbind]. rewrite Hp.
  destruct (get_switch_by_dpid controller (DPID_value dpid)); reflexivity.
Qed.

(** C10. The listener never compares the two endpoints.  When the decoded
    dpid is that of the very switch the frame came in on, it still puts
    exactly one link event, whose two endpoints carry that switch's id;
    the decoded port may be the ingress port itself. *)
Theorem C10_no_distinctness_check :
  forall controller event ethernet lldp dpid port_b buf,
    unpack_non_empty Ethernet (message_data event) = Ok ethernet ->
    ether_type ethernet = Some EtherType_LLDP ->
    unpack_non_empty LLDP (data ethernet) = Ok lldp ->
    unpack_non_empty DPID (sub_value (chassis_id lldp)) = Ok dpid ->
    unpack_non_empty UBInt16 (sub_value (port_id lldp)) = Ok port_b ->
    get_switch_by_dpid controller (DPID_value dpid) =
      Some (source_switch event) ->
    notify_uplink_detected controller event buf =
    (buf ++ [mkKytosEvent "diraol/of_lldp.switch.link"
               (link_content
                  (mkEndpoint (id (source_switch event)) (in_port event))
                  (mkEndpoint (id (source_switch event))
                              (UBInt16_value port_b)))],
     Ok tt).
Proof.
  intros controller event ethernet lldp dpid port_b buf He Ht Hl Hd Hp Hg.
  rewrite (notify_decoded _ _ _ _ _ _ _ He Ht Hl Hd Hp), Hg. reflexivity.
Qed.

Lemma C10_witness :
  unpack_non_empty Ethernet (message_data event_loop_back)
    = Ok probe_ethernet /\
  unpack_non_empty LLDP (data probe_ethernet) = Ok probe_lldp /\
  unpack_non_empty DPID (sub_value (chassis_id probe_lldp))
    = Ok (mkDPID "00:00:00:00:00:00:00:01") /\
  unpack_non_empty UBInt16 (sub_value (port_id probe_lldp))
    = Ok (mkUBInt16 3) /\
  get_switch_by_dpid inventory_up "00:00:00:00:00:00:00:01"
    = Some (source_switch event_loop_back) /\
  notify_uplink_detected inventory_up event_loop_back [] =
  ([mkKytosEvent "diraol/of_lldp.switch.link"
      (link_content (mkEndpoint "00:00:00:00:00:00:00:01" 3)
                    (mkEndpoint "00:00:00:00:00:00:00:01" 3))],
   Ok tt).
Proof.
  repeat (split; [reflexivity|]).
  apply (C10_no_distinctness_check inventory_up event_loop_back
           probe_ethernet probe_lldp (mkDPID "00:00:00:00:00:00:00:01")
           (mkUBInt16 3) [] eq_refl eq_refl eq_refl eq_refl eq_refl eq_refl).
Defined.

(** C8, as the spec states it, fails: with an empty inventory the probe of
    [switch_up] decodes, the lookup misses, and the listener does not
    return normally. *)
Lemma C8_counterexample :
  ~ (forall controller event ethernet lldp dpid port_b buf,
        unpack_non_empty Ethernet (message_data event) = Ok ethernet ->
        ether_type ethernet = Some EtherType_LLDP ->
        unpack_non_empty LLDP (data ethernet) = Ok lldp ->
        unpack_non_empty DPID (sub_value (chassis_id lldp)) = Ok dpid ->
        unpack_non_empty UBInt16 (sub_value (port_id lldp)) = Ok port_b ->
        get_switch_by_dpid controller (DPID_value dpid) = None ->
        notify_uplink_detected controller event buf = (buf, Ok tt)).
Proof.
  intros H.
  specialize (H (mkController []) event_loop_back probe_ethernet probe_lldp
                (mkDPID "00:00:00:00:00:00:00:01") (mkUBInt16 3) []
                eq_refl eq_refl eq_refl eq_refl eq_refl eq_refl).
  vm_compute in H. discriminate H.
Qed.

(** C8, amended.  When a probe decodes (header, LLDP structure, dpid and
    port) and the inventory has no switch under the decoded dpid, the
    listener puts no link event, and reading the id of the missing switch
    raises AttributeError, which leaves the listener uncaught. *)
Theorem C8_lookup_miss_raises :
  forall controller event ethernet lldp dpid port_b buf,
    unpack_non_empty Ethernet (message_data event) = Ok ethernet ->
    ether_type ethernet = Some EtherType_LLDP ->
    unpack_non_empty LLDP (data ethernet) = Ok lldp ->
    unpack_non_empty DPID (sub_value (chassis_id lldp)) = Ok dpid ->
    unpack_non_empty UBInt16 (sub_value (port_id lldp)) = Ok port_b ->
    get_switch_by_dpid controller (DPID_value dpid) = None ->
    notify_uplink_detected controller event buf = (buf, Raise AttributeError).
Proof.
  intros controller event ethernet lldp dpid port_b buf He Ht Hl Hd Hp Hg.
  rewrite (notify_decoded _ _ _ _ _ _ _ He Ht Hl Hd Hp), Hg. reflexivity.
Qed.

Lemma C8_witness :
  unpack_non_empty Ethernet (message_data event_loop_back)
    = Ok probe_ethernet /\
  unpack_non_empty LLDP (data probe_ethernet) = Ok probe_lldp /\
  unpack_non_empty DPID (sub_value (chassis_id probe_lldp))
    = Ok (mkDPID "00:00:00:00:00:00:00:01") /\
  unpack_non_empty UBInt16 (sub_value (port_id probe_lldp))
    = Ok (mkUBInt16 3) /\
  get_switch_by_dpid (mkController []) "00:00:00:00:00:00:00:01" = None /\
  notify_uplink_detected (mkController []) event_loop_back [] =
  ([], Raise AttributeError).
Proof.
  repeat (split; [reflexivity|]).
  apply (C8_lookup_miss_raises (mkController []) event_loop_back
           probe_ethernet probe_lldp (mkDPID "00:00:00:00:00:00:00:01")
           (mkUBInt16 3) [] eq_refl eq_refl eq_refl eq_refl eq_refl eq_refl).
Defined.

(** *** Decode failures: which exception each step raises *)

Lemma rbind_Raise {A B} (r : result A) (k : A -> result B) e :
  rbind r k = Raise e ->
  r = Raise e \/ exists a, r = Ok a /\ k a = Raise e.
Proof.
  destruct r as [a|e']; simpl; intros H.
  - right. exists a. auto.
  - left. congruence.
Qed.

Lemma UBInt16_unpack_at_exn buff offset e :
  UBInt16_unpack_at buff offset = Raise e -> e = UnpackException.
Proof.
  unfold UBInt16_unpack_at, pystruct.unpack_from_H.
  destruct (skipn offset buff) as [|hi [|lo rest]]; simpl; congruence.
Qed.

Lemma UBInt8_unpack_at_exn buff offset e :
  UBInt8_unpack_at buff offset = Raise e -> e = UnpackException.
Proof.
  unfold UBInt8_unpack_at, pystruct.unpack_from_B.
  destruct (skipn offset buff) as [|b rest]; simpl; congruence.
Qed.

Lemma TLVWithSubType_unpack_at_exn buffer offset e :
  TLVWithSubType_unpack_at buffer offset = Raise e -> e = UnpackException.
Proof.
  unfold TLVWithSubType_unpack_at. intros H.
  apply rbind_Raise in H. destruct H as [H|[h [_ H]]].
  - apply UBInt16_unpack_at_exn in H. exact H.
  - apply rbind_Raise in H. destruct H as [H|[st [_ H]]].
    + apply UBInt8_unpack_at_exn in H. exact H.
    + discriminate H.
Qed.

Lemma GenericTLV_unpack_at_exn buff offset e :
  GenericTLV_unpack_at buff offset = Raise e -> e = UnpackException.
Proof.
  unfold GenericTLV_unpack_at. intros H.
  apply rbind_Raise in H. destruct H as [H|[h [_ H]]].
  - apply UBInt16_unpack_at_exn in H. exact H.
  - discriminate H.
Qed.

(** A failure to unpack the LLDP structure is an UnpackException. *)
Lemma LLDP_unpack_exn buff e :
  unpack (T := LLDP) buff = Raise e -> e = UnpackException.
Proof.
  unfold unpack, LLDP_Unpack. destruct buff as [|b0 buff]; [discriminate|].
  intros H.
  apply rbind_Raise in H. destruct H as [H|[c [_ H]]];
    [exact (TLVWithSubType_unpack_at_exn _ _ _ H)|].
  apply rbind_Raise in H. destruct H as [H|[p [_ H]]];
    [exact (TLVWithSubType_unpack_at_exn _ _ _ H)|].
  apply rbind_Raise in H. destruct H as [H|[t [_ H]]];
    [exact (GenericTLV_unpack_at_exn _ _ _ H)|].
  apply rbind_Raise in H. destruct H as [H|[t' [_ H]]];
    [exact (GenericTLV_unpack_at_exn _ _ _ H)|].
  discriminate H.
Qed.

Lemma DPID_unpack_loop_exn n buff begin e :
  DPID_unpack_loop n buff begin = Raise e -> e = struct_error.
Proof.
  revert begin. induction n as [|n IH]; intros begin H; [discriminate H|].
  simpl in H. apply rbind_Raise in H. destruct H as [H|[number [_ H]]].
  - unfold pystruct.unpack_B in H.
    destruct (slice buff begin (begin + 1)) as [|b [|b' rest]];
      congruence.
  - apply rbind_Raise in H. destruct H as [H|[hexas [_ H]]].
    + exact (IH _ H).
    + discriminate H.
Qed.

(** A failure to unpack a dpid is a [struct.error]. *)
Lemma DPID_unpack_exn buff e :
  unpack (T := DPID) buff = Raise e -> e = struct_error.
Proof.
  unfold unpack, DPID_Unpack. intros H.
  apply rbind_Raise in H. destruct H as [H|[hexas [_ H]]].
  - exact (DPID_unpack_loop_exn _ _ _ _ H).
  - discriminate H.
Qed.

(** The half of the drop rule that holds: a chassis id whose bytes do not
    unpack as a dpid raises [struct.error], which the listener catches. *)
Lemma notify_drops_foreign_chassis_id controller event ethernet lldp e buf :
  unpack_non_empty Ethernet (message_data event) = Ok ethernet ->
  ether_type ethernet = Some EtherType_LLDP ->
  unpack_non_empty LLDP (data ethernet) = Ok lldp ->
  sub_value (chassis_id lldp) <> BinaryData_None ->
  unpack_non_empty DPID (sub_value (chassis_id lldp)) = Raise e ->
  notify_uplink_detected controller event buf = (buf, Ok tt).
Proof.
  intros He Ht Hl Hn Hd.
  assert (e = struct_error) as ->.
  { unfold unpack_non_empty in Hd.
    destruct (sub_value (chassis_id lldp)); [| |contradiction];
      exact (DPID_unpack_exn _ _ Hd). }
  unfold notify_uplink_detected, pbind, lift. rewrite He.
  apply ether_type_is_LLDP_iff in Ht. rewrite Ht, Hl. cbn [rbind].
  rewrite Hd. reflexivity.
Qed.

(** The half that does not: an LLDP structure that does not unpack raises
    UnpackException, which [except struct.error] lets through. *)
Lemma notify_raises_on_bad_lldp controller event ethernet e buf :
  unpack_non_empty Ethernet (message_data event) = Ok ethernet ->
  ether_type ethernet = Some EtherType_LLDP ->
  unpack_non_empty LLDP (data ethernet) = Raise e ->
  notify_uplink_detected controller event buf = (buf, Raise UnpackException).
Proof.
  intros He Ht Hl.
  assert (e = UnpackException) as ->.
  { unfold unpack_non_empty in Hl.
    destruct (data ethernet); [| |discriminate Hl];
      exact (LLDP_unpack_exn _ _ Hl). }
  unfold notify_uplink_detected, pbind, lift. rewrite He.
  apply ether_type_is_LLDP_iff in Ht. rewrite Ht, Hl. reflexivity.
Qed.

(** C6, at a frame the code does not drop.  The ether type is LLDP, the
    payload does not unpack as the LLDP structure, and the listener raises
    UnpackException instead of returning. *)
Theorem C6_bad_lldp_structure_raises :
  (exists ethernet,
      unpack_non_empty Ethernet (BinaryData frame_truncated_tlv)
        = Ok ethernet /\
      ether_type ethernet = Some EtherType_LLDP /\
      unpack_non_empty LLDP (data ethernet) = Raise UnpackException) /\
  notify_uplink_detected inventory_up
    (mkPacketInEvent switch_up 7 (BinaryData frame_truncated_tlv)) []
  = ([], Raise UnpackException).
Proof.
  split; [|vm_compute; reflexivity].
  eexists. split; [vm_compute; reflexivity|].
  split; vm_compute; reflexivity.
Qed.

(** ** Round trip of the probe encoding *)



Lemma byte_to_Z_to_byte z : 0 <= z <= 255 -> byte_to_Z (Z_to_byte z) = z.
Proof.
  intros Hz. unfold Z_to_byte, byte_to_Z. rewrite Z.mod_small by lia.
  destruct (Byte.of_N (Z.to_N z)) as [b|] eqn:E.
  - apply Byte.to_of_N in E. rewrite E. lia.
  - apply Byte.of_N_None_iff in E. lia.
Qed.

Lemma hex_char_cases (P : Z -> Prop) :
  P 0 -> P 1 -> P 2 -> P 3 -> P 4 -> P 5 -> P 6 -> P 7 ->
  P 8 -> P 9 -> P 10 -> P 11 -> P 12 -> P 13 -> P 14 -> P 15 ->
  forall d, 0 <= d < 16 -> P d.
Proof.
  intros. 
  assert (d = 0 \/ d = 1 \/ d = 2 \/ d = 3 \/ d = 4 \/ d = 5 \/ d = 6 \/
          d = 7 \/ d = 8 \/ d = 9 \/ d = 10 \/ d = 11 \/ d = 12 \/
          d = 13 \/ d = 14 \/ d = 15) as Hd by lia.
  repeat (destruct Hd as [->|Hd]; [assumption|]). subst d. assumption.
Qed.

Lemma hex_digit_hex_char d : 0 <= d < 16 -> hex_digit (hex_char d) = Some d.
Proof.
  revert d.
  apply (hex_char_cases (fun d => hex_digit (hex_char d) = Some d));
    reflexivity.
Qed.












Ltac eight_bytes bs H :=
  do 8 (destruct bs as [|? bs]; [discriminate H|]);
  destruct bs; [clear H | discriminate H].

Ltac six_bytes bs H :=
  do 6 (destruct bs as [|? bs]; [discriminate H|]);
  destruct bs; [clear H | discriminate H].

(** Unpacking eight bytes as a dpid prints their canonical text. *)
Lemma DPID_unpack_bytes bs :
  List.length bs = 8%nat -> unpack (T := DPID) bs = Ok (mkDPID (hex_text bs)).
Proof.
  intros Hl. eight_bytes bs Hl. reflexivity.
Qed.

Lemma UBInt16_pack_ok v :
  0 <= v <= 65535 ->
  UBInt16_pack v = Ok [Z_to_byte (v / 256); Z_to_byte (v mod 256)].
Proof.
  intros Hv. unfold UBInt16_pack, pystruct.pack_H.
  replace ((0 <=? v) && (v <=? 65535)) with true; [reflexivity|].
  symmetry. apply andb_true_intro. split; apply Z.leb_le; lia.
Qed.


Lemma pack_B_length n vals bs :
  pystruct.pack_B n vals = Ok bs -> List.length bs = n.
Proof.
  unfold pystruct.pack_B.
  destruct (Nat.eqb (List.length vals) n) eqn:E; [|discriminate].
  cbn [negb]. destruct (forallb _ vals); [|discriminate].
  intros H. inversion H. rewrite length_map.
  apply Nat.eqb_eq. exact E.
Qed.

Lemma HWAddress_pack_length value mac :
  HWAddress_pack value = Ok mac -> List.length mac = 6%nat.
Proof.
  unfold HWAddress_pack. destruct (mapM int16 (split_colon value)) as [vals|e];
    [|discriminate].
  cbn [rbind]. destruct (pystruct.pack_B 6 vals) as [bs|e] eqn:E.
  - intros H. inversion H. subst. exact (pack_B_length _ _ _ E).
  - simpl. destruct (exn_eqb e struct_error); discriminate.
Qed.

(** An Ethernet frame with the LLDP ether type unpacks to its parts. *)
Lemma Ethernet_unpack_frame d s payload :
  List.length d = 6%nat -> List.length s = 6%nat ->
  unpack (T := Ethernet) (d ++ s ++ [x88; xcc] ++ payload) =
  Ok (mkEthernet (hex_text d) (hex_text s) (Some EtherType_LLDP)
                 (BinaryData payload)).
Proof.
  intros Hd Hs. six_bytes d Hd. six_bytes s Hs. reflexivity.
Qed.

Lemma byte_to_Z_mod z : byte_to_Z (Z_to_byte z) = z mod 256.
Proof.
  pose proof (Z.mod_pos_bound z 256 ltac:(lia)) as Hm.
  rewrite <- (byte_to_Z_to_byte (z mod 256)) by lia.
  unfold Z_to_byte. rewrite Z.mod_mod by lia. reflexivity.
Qed.

Lemma UBInt16_pack_out_of_range v :
  ~ 0 <= v <= 65535 -> UBInt16_pack v = Raise PackException.
Proof.
  intros Hv. unfold UBInt16_pack, pystruct.pack_H.
  replace ((0 <=? v) && (v <=? 65535)) with false; [reflexivity|].
  symmetry. apply andb_false_iff.
  destruct (Z.leb_spec 0 v); [|left; reflexivity].
  right. apply Z.leb_gt. lia.
Qed.

(** What packing the object that holds a port gives: two bytes for a
    [UBInt16], four for a [UBInt32], nothing for a plain [int]. *)
Lemma int_pack_Ok c v pb :
  int_pack c v = Ok pb ->
  (c = pyof_UBInt16 /\ 0 <= v <= 65535 /\
   pb = [Z_to_byte (v / 256); Z_to_byte (v mod 256)]) \/
  (c = pyof_UBInt32 /\ 0 <= v <= 4294967295 /\
   pb = [Z_to_byte (v / 16777216); Z_to_byte (v / 65536);
         Z_to_byte (v / 256); Z_to_byte v]).
Proof.
  destruct c; cbn [int_pack]; [discriminate| |].
  - destruct (Z_le_dec 0 v) as [H0|H0];
      [destruct (Z_le_dec v 65535) as [H1|H1]|].
    + rewrite (UBInt16_pack_ok v (conj H0 H1)). intros H. inversion H.
      left. repeat split; lia.
    + rewrite UBInt16_pack_out_of_range by lia. discriminate.
    + rewrite UBInt16_pack_out_of_range by lia. discriminate.
  - unfold UBInt32_pack, pystruct.pack_I.
    destruct ((0 <=? v) && (v <=? 4294967295)) eqn:E; [|discriminate].
    apply andb_prop in E. destruct E as [E0 E1].
    apply Z.leb_le in E0. apply Z.leb_le in E1.
    cbn [reraise]. intros H. inversion H. right. repeat split; lia.
Qed.

Lemma DPID_pack_length value bs :
  DPID_pack value = Ok bs -> List.length bs = 8%nat.
Proof.
  unfold DPID_pack.
  destruct (mapM int16 (split_colon value)) as [vals|e]; [|discriminate].
  cbn [rbind]. apply pack_B_length.
Qed.

Lemma LLDP_pack_probe value bs c v pb :
  DPID_pack value = Ok bs -> int_pack c v = Ok pb ->
  LLDP_pack value c v = Ok (probe_lldp_bytes bs pb).
Proof.
  intros Hd Hp. pose proof (DPID_pack_length _ _ Hd) as Hl.
  unfold LLDP_pack. rewrite Hd, Hp.
  destruct (int_pack_Ok _ _ _ Hp) as [[_ [_ ->]]|[_ [_ ->]]];
    [generalize (Z_to_byte (v / 256)) (Z_to_byte (v mod 256)); intros b0 b1
    |generalize (Z_to_byte (v / 16777216)) (Z_to_byte (v / 65536))
                (Z_to_byte (v / 256)) (Z_to_byte v); intros b0 b1 b2 b3];
    eight_bytes bs Hl; vm_compute; reflexivity.
Qed.

Lemma LLDP_unpack_probe bs pb :
  List.length bs = 8%nat ->
  List.length pb = 2%nat \/ List.length pb = 4%nat ->
  unpack (T := LLDP) (probe_lldp_bytes bs pb) =
  Ok (mkLLDP (mkTLVWithSubType 1 7 (BinaryData bs))
             (mkTLVWithSubType 2 7 (BinaryData pb))
             (mkGenericTLV 3 [x00; x78])
             (mkGenericTLV 0 [])).
Proof.
  intros Hl [Hp|Hp]; eight_bytes bs Hl.
  - do 2 (destruct pb as [|? pb]; [discriminate Hp|]).
    destruct pb; [|discriminate Hp]. vm_compute. reflexivity.
  - do 4 (destruct pb as [|? pb]; [discriminate Hp|]).
    destruct pb; [|discriminate Hp]. vm_compute. reflexivity.
Qed.





(** ** The end-to-end scenarios of the spec, run on the model *)

(** Scenario 1: switch A (dpid 0x1, connected, version 0x04) with port 3
    (and the local port 65534): one tick puts exactly one packet-out,
    addressed to A's connection, with one output action on port 3 and the
    serialized probe as data. *)
Example scenario_1_one_probe_per_eligible_port :
  execute inventory_up [] =
  ([mkKytosEvent "diraol/of_lldp.messages.out.ofpt_packet_out"
      (packet_out_content (connection switch_up)
         (mkPacketOut v0x04 probe_frame
                      [mkActionOutput v0x04 (Some 3)]))],
   Ok tt).
Proof. vm_compute. reflexivity. Qed.

(** Scenario 2: that frame, arriving at switch B on port 7, with A in the
    inventory: one link event, B's id and port 7 paired with A's id and
    port 3. *)
Example scenario_2_link_discovered :
  notify_uplink_detected inventory_up
    (mkPacketInEvent switch_down 7 (BinaryData probe_frame)) [] =
  ([mkKytosEvent "diraol/of_lldp.switch.link"
      (link_content (mkEndpoint "00:00:00:00:00:00:00:09" 7)
                    (mkEndpoint "00:00:00:00:00:00:00:01" 3))],
   Ok tt).
Proof. vm_compute. reflexivity. Qed.

(** A foreign LLDP frame whose chassis id is a MAC address (sub type 4,
    six bytes) is dropped without an event and without an exception. *)
Example foreign_lldp_with_mac_chassis_id_is_dropped :
  notify_uplink_detected inventory_up
    (mkPacketInEvent switch_down 7
       (BinaryData
          ([x01; x80; xc2; x00; x00; x0e; x00; x11; x22; x33; x44; x55;
            x88; xcc;
            x02; x07; x04; x00; x11; x22; x33; x44; x55;
            x04; x03; x07; x00; x01;
            x06; x02; x00; x78;
            x00; x00]))) [] =
  ([], Ok tt).
Proof. vm_compute. reflexivity. Qed.

(** * Further properties of main.py *)

(** ** Computations that only append *)

Lemma framed_pret {A} (a : A) : framed (pret a).
Proof. intros buf. unfold pret. simpl. rewrite app_nil_r. reflexivity. Qed.

Lemma framed_lift {A} (r : result A) : framed (lift r).
Proof. intros buf. unfold lift. simpl. rewrite app_nil_r. reflexivity. Qed.

Lemma framed_put ev : framed (put ev).
Proof. intros buf. reflexivity. Qed.

Lemma framed_pbind {A B} (m : Pub A) (k : A -> Pub B) :
  framed m -> (forall a, framed (k a)) -> framed (pbind m k).
Proof.
  intros Hm Hk buf. unfold pbind.
  rewrite (Hm buf). destruct (m []) as [new [a|e]]; simpl.
  - rewrite (Hk a (buf ++ new)), (Hk a new). simpl.
    rewrite app_assoc. reflexivity.
  - reflexivity.
Qed.

Lemma framed_for_each {A} (body : A -> Pub unit) l :
  (forall x, framed (body x)) -> framed (for_each l body).
Proof.
  intros Hb. induction l as [|x l IH].
  - apply framed_pret.
  - cbn [for_each]. apply framed_pbind; [apply Hb | intros _; exact IH].
Qed.

Lemma framed_execute_interface switch of_version interface :
  framed (execute_interface switch of_version interface).
Proof.
  unfold execute_interface.
  destruct (port_number interface =? 65534); [apply framed_pret|].
  apply framed_pbind; [apply framed_lift | intros lldp_pack].
  apply framed_pbind; [apply framed_lift | intros ethernet_pack].
  destruct (build_lldp_packet_out _ _ _); [apply framed_put|apply framed_pret].
Qed.

Lemma framed_execute_switch switch : framed (execute_switch switch).
Proof.
  unfold execute_switch.
  apply framed_pbind; [apply framed_lift | intros of_version].
  destruct (negb _); [apply framed_pret|].
  apply framed_for_each. intros i. apply framed_execute_interface.
Qed.

Lemma framed_execute controller : framed (execute controller).
Proof.
  unfold execute. apply framed_for_each. apply framed_execute_switch.
Qed.

Lemma framed_notify_uplink_detected controller event :
  framed (notify_uplink_detected controller event).
Proof.
  unfold notify_uplink_detected.
  apply framed_pbind; [apply framed_lift | intros ethernet].
  destruct (ether_type_is_LLDP ethernet); [|apply framed_pret].
  destruct (rbind _ _) as [[lldp dpid]|e].
  - apply framed_pbind; [apply framed_lift | intros port_b].
    apply framed_pbind; [apply framed_lift | intros content].
    apply framed_put.
  - destruct e; first [apply framed_pret | apply framed_lift].
Qed.

(** X1. A tick keeps no state of its own: what it puts and how it ends
    depend on the inventory alone, not on what the outbound buffer
    already holds, and what it puts comes after what was there.  Two
    ticks in a row on the same inventory that return normally put the
    same commands twice. *)
Theorem execute_is_stateless :
  forall controller buf,
    execute controller buf =
      (buf ++ fst (execute controller []), snd (execute controller [])) /\
    (snd (execute controller []) = Ok tt ->
     execute controller (fst (execute controller buf)) =
       (buf ++ fst (execute controller []) ++ fst (execute controller []),
        Ok tt)).
Proof.
  intros controller buf.
  pose proof (framed_execute controller) as Hf.
  split; [apply Hf|].
  intros Hok. rewrite (Hf buf). cbn [fst].
  rewrite (Hf (buf ++ fst (execute controller []))), Hok, <- app_assoc.
  reflexivity.
Qed.

Lemma execute_is_stateless_witness :
  snd (execute inventory_up []) = Ok tt /\
  List.length (fst (execute inventory_up
                      (fst (execute inventory_up [])))) = 2%nat.
Proof.
  split; [reflexivity|].
  rewrite (proj2 (execute_is_stateless inventory_up []) eq_refl).
  reflexivity.
Defined.

(** ** What a tick puts *)

Lemma of_version_of_negotiated switch :
  of_version_of switch = Ok (negotiated_version switch).
Proof.
  unfold negotiated_version.
  destruct (of_version_of_total switch) as [v Hv]. rewrite Hv. reflexivity.
Qed.

Lemma execute_switch_eligible switch buf :
  execute_switch switch buf =
  if eligible switch
  then for_each (interfaces switch)
                (execute_interface switch (negotiated_version switch)) buf
  else (buf, Ok tt).
Proof.
  unfold execute_switch, pbind, lift, eligible.
  rewrite of_version_of_negotiated.
  destruct (is_connected switch && _); reflexivity.
Qed.

Lemma eligible_family switch :
  eligible switch = true ->
  exists f, family_of (negotiated_version switch) = Some f.
Proof.
  unfold eligible. intros H. apply andb_prop in H. destruct H as [_ H].
  apply py_in_supported in H. destruct H as [-> | ->]; eexists; reflexivity.
Qed.

Lemma build_lldp_packet_out_family version f port_number data :
  family_of version = Some f ->
  build_lldp_packet_out version port_number data =
  Some (mkPacketOut f data [mkActionOutput f (Some port_number)]).
Proof.
  unfold family_of, build_lldp_packet_out.
  destruct (version_eqb version 1).
  - intros H. inversion H. reflexivity.
  - destruct (version_eqb version 4); intros H; inversion H. reflexivity.
Qed.

(** The three ways one iteration of the inner loop can end, for a
    supported version. *)
Lemma execute_interface_outcome switch version f interface :
  family_of version = Some f ->
  (port_number interface = 65534 /\
   execute_interface switch version interface [] = ([], Ok tt)) \/
  (port_number interface <> 65534 /\
   exists e, execute_interface switch version interface [] = ([], Raise e)) \/
  (port_number interface <> 65534 /\
   exists ev, is_probe_for switch f interface ev /\
              execute_interface switch version interface [] = ([ev], Ok tt)).
Proof.
  intros Hf. unfold execute_interface.
  destruct (Z.eqb_spec (port_number interface) 65534) as [E|E];
    [left; split; [exact E | reflexivity]|].
  right. unfold pbind, lift.
  destruct (LLDP_pack _ _) as [l|e]; [|left; split; [exact E|eauto]].
  destruct (Ethernet_pack _ _ _ _) as [fr|e]; [|left; split; [exact E|eauto]].
  rewrite (build_lldp_packet_out_family _ _ _ _ Hf).
  right. split; [exact E|]. eexists. split; [exists fr; reflexivity|].
  reflexivity.
Qed.

(** X2. Every event a tick puts is a probe command: a packet-out event,
    addressed to the connection of a switch of the inventory that is
    connected and speaks 0x01 or 0x04, carrying a message of that
    version's family with exactly one output action, of the same family,
    on the port of one of that switch's interfaces other than 65534.
    This holds also for a tick that ends with an exception. *)
Theorem execute_puts_only_probes :
  forall controller,
    Forall (is_probe_of controller) (fst (execute controller [])).
Proof.
  intros controller. unfold execute.
  apply (for_each_invariant execute_switch
           (Forall (is_probe_of controller))); [|constructor].
  intros switch b Hin Hb.
  apply in_map_iff in Hin. destruct Hin as [[key sw] [Hsw Hin]].
  simpl in Hsw. subst sw.
  rewrite execute_switch_eligible.
  destruct (eligible switch) eqn:He; [|exact Hb].
  destruct (eligible_family switch He) as [f Hf].
  apply (for_each_invariant
           (execute_interface switch (negotiated_version switch))
           (Forall (is_probe_of controller))); [|exact Hb].
  intros interface b' Hi Hb'.
  rewrite (framed_execute_interface switch _ interface b'). cbn [fst].
  apply Forall_app. split; [exact Hb'|].
  destruct (execute_interface_outcome switch _ f interface Hf)
    as [[_ ->]|[[_ [e ->]]|[Hp [ev [Hev ->]]]]]; try constructor.
  - exists key, switch, f, interface. repeat split; assumption.
  - constructor.
Qed.

(** A loop whose iterations each reach a prefix of what is expected of
    them, and all of it exactly when they return, reaches a prefix of
    what is expected of the list, and all of it exactly when it returns. *)
Lemma for_each_targets {A} (body : A -> Pub unit)
    (expected : A -> list (option Connection * list (option Z))) l :
  (forall x, framed (body x)) ->
  (forall x, In x l ->
     exists rest,
       expected x = map probe_target (fst (body x [])) ++ rest /\
       (snd (body x []) = Ok tt <-> rest = [])) ->
  exists rest,
    flat_map expected l = map probe_target (fst (for_each l body [])) ++ rest /\
    (snd (for_each l body []) = Ok tt <-> rest = []).
Proof.
  intros Hf. induction l as [|x l IH]; intros Hb.
  - exists []. split; [reflexivity|]. split; reflexivity.
  - destruct (Hb x (or_introl eq_refl)) as [rx [Hx Hokx]].
    destruct IH as [rl [Hl Hokl]];
      [intros y Hy; apply Hb; right; exact Hy|].
    rewrite for_each_cons. cbn [flat_map]. rewrite Hx, Hl.
    destruct (body x []) as [new [[]|e]] eqn:Ebody; cbn [fst snd] in *.
    + assert (rx = []) as -> by (apply Hokx; reflexivity).
      rewrite (framed_for_each body l Hf new). cbn [fst snd].
      exists rl. split; [|exact Hokl].
      rewrite app_nil_r, map_app, <- app_assoc. reflexivity.
    + exists (rx ++ map probe_target (fst (for_each l body [])) ++ rl).
      split; [rewrite <- app_assoc; reflexivity|].
      split; [discriminate|].
      intros Hnil. apply app_eq_nil in Hnil. destruct Hnil as [Hrx _].
      apply Hokx in Hrx. discriminate Hrx.
Qed.

Lemma probed_ports_flat_map (conn : option Connection) interfaces0 :
  flat_map (fun i => if port_number i =? 65534 then []
                     else [(conn, [Some (port_number i)])]) interfaces0 =
  map (fun p => (conn, [Some p]))
      (filter (fun p => negb (p =? 65534)) (map port_number interfaces0)).
Proof.
  induction interfaces0 as [|i l IH]; [reflexivity|].
  cbn [flat_map map filter]. rewrite IH.
  destruct (port_number i =? 65534); reflexivity.
Qed.

(** X3. A tick reaches the expected targets in order: the destinations
    and output ports of the events it puts are a prefix of the list made
    of, for each eligible switch of the inventory in order, each of its
    ports other than 65534 in order, one command per pair.  The tick
    returns normally exactly when that prefix is the whole list. *)
Theorem execute_reaches_targets_in_order :
  forall controller,
    exists rest,
      expected_targets controller =
        map probe_target (fst (execute controller [])) ++ rest /\
      (snd (execute controller []) = Ok tt <-> rest = []).
Proof.
  intros controller. unfold expected_targets, execute.
  apply for_each_targets; [apply framed_execute_switch|].
  intros switch _. rewrite execute_switch_eligible.
  destruct (eligible switch) eqn:He.
  - destruct (eligible_family switch He) as [f Hf].
    unfold probed_ports. rewrite <- probed_ports_flat_map.
    apply for_each_targets; [intros i; apply framed_execute_interface|].
    intros interface _.
    destruct (execute_interface_outcome switch _ f interface Hf)
      as [[Hp ->]|[[Hp [e ->]]|[Hp [ev [[frame ->] ->]]]]]; cbn [fst snd map].
    + apply Z.eqb_eq in Hp. rewrite Hp. exists [].
      split; [reflexivity|]. split; reflexivity.
    + apply Z.eqb_neq in Hp. rewrite Hp. eexists.
      split; [reflexivity|]. split; discriminate.
    + apply Z.eqb_neq in Hp. rewrite Hp. exists [].
      split; [reflexivity|]. split; reflexivity.
  - exists []. split; [reflexivity|]. split; reflexivity.
Qed.

(** ** When packing succeeds, and what it gives *)

(** The LLDP payload packs exactly when the dpid packs and the object
    that holds the port packs, and then it is [probe_lldp_bytes]. *)
Lemma LLDP_pack_iff value c v l :
  LLDP_pack value c v = Ok l <->
  exists bs pb, DPID_pack value = Ok bs /\ int_pack c v = Ok pb /\
                l = probe_lldp_bytes bs pb.
Proof.
  split.
  - destruct (DPID_pack value) as [bs|e] eqn:Hd.
    + destruct (int_pack c v) as [pb|e] eqn:Hp.
      * rewrite (LLDP_pack_probe _ _ _ _ _ Hd Hp). intros H. inversion H.
        exists bs, pb. repeat split.
      * pose proof (DPID_pack_length _ _ Hd) as Hl.
        unfold LLDP_pack. rewrite Hd, Hp. eight_bytes bs Hl.
        intros H. vm_compute in H. discriminate H.
    + unfold LLDP_pack. rewrite Hd. discriminate.
  - intros [bs [pb [Hd [Hp ->]]]]. apply LLDP_pack_probe; assumption.
Qed.

(** The frame packs exactly when the source address packs. *)
Lemma Ethernet_pack_iff source0 payload frame :
  Ethernet_pack LLDP_MULTICAST_MAC source0 EtherType_LLDP payload = Ok frame
  <->
  exists mac, HWAddress_pack source0 = Ok mac /\
              frame = [x01; x80; xc2; x00; x00; x0e] ++ mac ++
                      [x88; xcc] ++ payload.
Proof.
  unfold Ethernet_pack.
  change (HWAddress_pack LLDP_MULTICAST_MAC)
    with (Ok (A := bytes) [x01; x80; xc2; x00; x00; x0e]).
  change (UBInt16_pack EtherType_LLDP) with (Ok (A := bytes) [x88; xcc]).
  cbn [rbind]. split.
  - destruct (HWAddress_pack source0) as [mac|e]; [|discriminate].
    cbn [rbind]. intros H. inversion H. exists mac. split; reflexivity.
  - intros [mac [-> ->]]. reflexivity.
Qed.





(** What an iteration of the inner loop that puts an event has done. *)
Lemma execute_interface_put_inv switch version interface buf ev :
  execute_interface switch version interface buf = (buf ++ [ev], Ok tt) ->
  exists f dpid_bytes port_bytes mac,
    family_of version = Some f /\
    port_number interface <> 65534 /\
    DPID_pack (dpid switch) = Ok dpid_bytes /\
    int_pack (port_number_class interface) (port_number interface)
      = Ok port_bytes /\
    HWAddress_pack (address interface) = Ok mac /\
    ev = mkKytosEvent "diraol/of_lldp.messages.out.ofpt_packet_out"
           (packet_out_content (connection switch)
              (mkPacketOut f
                 (probe_frame_bytes dpid_bytes mac port_bytes)
                 [mkActionOutput f (Some (port_number interface))])).
Proof.
  intros H.
  rewrite (framed_execute_interface switch version interface buf) in H.
  inversion H as [[Hbuf Hok]]. apply app_inv_head in Hbuf.
  assert (port_number interface <> 65534) as Hp.
  { intros E. unfold execute_interface in Hbuf. rewrite E in Hbuf.
    discriminate Hbuf. }
  unfold execute_interface in Hbuf, Hok.
  destruct (Z.eqb_spec (port_number interface) 65534) as [E|_];
    [contradiction|].
  unfold pbind, lift in Hbuf, Hok.
  destruct (LLDP_pack _ _ _) as [l|e] eqn:HL; [|discriminate Hok].
  apply LLDP_pack_iff in HL. destruct HL as [bs [pb [Hd [Hr ->]]]].
  destruct (Ethernet_pack _ _ _ _) as [fr|e] eqn:HE; [|discriminate Hok].
  apply Ethernet_pack_iff in HE. destruct HE as [mac [Hm ->]].
  destruct (family_of version) as [f|] eqn:Hf.
  - rewrite (build_lldp_packet_out_family _ _ _ _ Hf) in Hbuf.
    cbn in Hbuf. inversion Hbuf as [Hev].
    exists f, bs, pb, mac. repeat split; assumption.
  - exfalso. unfold family_of in Hf. unfold build_lldp_packet_out in Hbuf.
    destruct (version_eqb version 1); [discriminate Hf|].
    destruct (version_eqb version 4); [discriminate Hf|].
    discriminate Hbuf.
Qed.

Lemma probe_frame_bytes_length bs mac pb :
  List.length bs = 8%nat -> List.length mac = 6%nat ->
  List.length (probe_frame_bytes bs mac pb) = (34 + List.length pb)%nat.
Proof.
  intros Hlb Hlm. unfold probe_frame_bytes, probe_lldp_bytes.
  rewrite !length_app, Hlb, Hlm. cbn [List.length]. lia.
Qed.

Lemma int_pack_length c v pb :
  int_pack c v = Ok pb ->
  List.length pb = match c with pyof_UBInt32 => 4%nat | _ => 2%nat end.
Proof.
  intros H. destruct (int_pack_Ok _ _ _ H) as [[-> [_ ->]]|[-> [_ ->]]];
    reflexivity.
Qed.


(** X5. The wire format of a probe.  Whenever an iteration of the inner
    loop puts an event, the dpid of the switch has packed to eight bytes,
    the object that holds the port to two bytes (a [UBInt16]) or four (a
    [UBInt32]), the address of the interface to six, and the data of the
    packet-out is exactly [probe_frame_bytes]: destination
    01:80:c2:00:00:0e, source the interface address, ether type 0x88CC,
    chassis TLV (type 1, sub type 7) with the dpid bytes, port TLV (type
    2, sub type 7) with the packed port, TTL TLV of 120 seconds, end TLV;
    36 bytes for a [UBInt16] port, 38 for a [UBInt32] port. *)
Theorem execute_interface_wire_format :
  forall switch version interface buf ev,
    execute_interface switch version interface buf = (buf ++ [ev], Ok tt) ->
    exists f dpid_bytes port_bytes mac,
      family_of version = Some f /\
      DPID_pack (dpid switch) = Ok dpid_bytes /\
      int_pack (port_number_class interface) (port_number interface)
        = Ok port_bytes /\
      HWAddress_pack (address interface) = Ok mac /\
      ev = mkKytosEvent "diraol/of_lldp.messages.out.ofpt_packet_out"
             (packet_out_content (connection switch)
                (mkPacketOut f
                   (probe_frame_bytes dpid_bytes mac port_bytes)
                   [mkActionOutput f (Some (port_number interface))])) /\
      List.length (probe_frame_bytes dpid_bytes mac port_bytes) =
        match port_number_class interface with
        | pyof_UBInt32 => 38%nat
        | _ => 36%nat
        end.
Proof.
  intros switch version interface buf ev H.
  destruct (execute_interface_put_inv _ _ _ _ _ H)
    as [f [bs [pb [mac [Hf [_ [Hd [Hp [Hm Hev]]]]]]]]].
  exists f, bs, pb, mac. repeat split; try assumption.
  rewrite (probe_frame_bytes_length bs mac pb
             (DPID_pack_length _ _ Hd) (HWAddress_pack_length _ _ Hm)).
  rewrite (int_pack_length _ _ _ Hp).
  destruct (port_number_class interface); reflexivity.
Qed.

Lemma execute_interface_wire_format_witness :
  execute_interface switch_up (Some 0x04)
                    (mkInterface 3 pyof_UBInt16 "aa:bb:cc:dd:ee:01") [] =
    ([] ++ [mkKytosEvent "diraol/of_lldp.messages.out.ofpt_packet_out"
              (packet_out_content (connection switch_up)
                 (mkPacketOut v0x04 probe_frame
                              [mkActionOutput v0x04 (Some 3)]))],
     Ok tt) /\
  exists f dpid_bytes port_bytes mac,
    DPID_pack (dpid switch_up) = Ok dpid_bytes /\
    int_pack pyof_UBInt16 3 = Ok port_bytes /\
    HWAddress_pack "aa:bb:cc:dd:ee:01" = Ok mac /\
    mkKytosEvent "diraol/of_lldp.messages.out.ofpt_packet_out"
      (packet_out_content (connection switch_up)
         (mkPacketOut v0x04 probe_frame [mkActionOutput v0x04 (Some 3)])) =
    mkKytosEvent "diraol/of_lldp.messages.out.ofpt_packet_out"
      (packet_out_content (connection switch_up)
         (mkPacketOut f (probe_frame_bytes dpid_bytes mac port_bytes)
                      [mkActionOutput f (Some 3)])).
Proof.
  split; [reflexivity|].
  destruct (execute_interface_wire_format switch_up (Some 0x04)
              (mkInterface 3 pyof_UBInt16 "aa:bb:cc:dd:ee:01") [] _ eq_refl)
    as [f [bs [pb [mac [_ [Hd [Hp [Hm [Hev _]]]]]]]]].
  exists f, bs, pb, mac.
  split; [exact Hd|]. split; [exact Hp|]. split; [exact Hm | exact Hev].
Defined.

(** ** How the listener can end *)

Lemma HWAddress_unpack_at_exn buff offset e :
  HWAddress_unpack_at buff offset = Raise e -> e = UnpackException.
Proof.
  unfold HWAddress_unpack_at, pystruct.unpack_6B.
  destruct (Nat.eqb _ 6); simpl; congruence.
Qed.

Lemma ListOfVLAN_unpack_exn fuel buff e :
  ListOfVLAN_unpack fuel buff = Raise e -> e = UnpackException.
Proof.
  revert buff. induction fuel as [|fuel IH]; intros buff H.
  - destruct buff; discriminate H.
  - destruct buff as [|b0 buff]; [discriminate H|].
    cbn [ListOfVLAN_unpack] in H.
    apply rbind_Raise in H. destruct H as [H|[tpid [_ H]]];
      [exact (UBInt16_unpack_at_exn _ _ _ H)|].
    apply rbind_Raise in H. destruct H as [H|[tci [_ H]]];
      [exact (UBInt16_unpack_at_exn _ _ _ H)|].
    apply rbind_Raise in H. destruct H as [H|[rest [_ H]]];
      [exact (IH _ H) | discriminate H].
Qed.

Lemma Ethernet_unpack_exn buff e :
  unpack (T := Ethernet) buff = Raise e -> e = UnpackException.
Proof.
  cbn [unpack Ethernet_Unpack]. intros H.
  apply rbind_Raise in H. destruct H as [H|[d [_ H]]];
    [exact (HWAddress_unpack_at_exn _ _ _ H)|].
  apply rbind_Raise in H. destruct H as [H|[s [_ H]]];
    [exact (HWAddress_unpack_at_exn _ _ _ H)|].
  apply rbind_Raise in H. destruct H as [H|[v [_ H]]];
    [exact (ListOfVLAN_unpack_exn _ _ _ H)|].
  apply rbind_Raise in H. destruct H as [H|[t [_ H]]];
    [exact (UBInt16_unpack_at_exn _ _ _ H)|].
  discriminate H.
Qed.

Lemma UBInt16_unpack_exn buff e :
  unpack (T := UBInt16) buff = Raise e -> e = UnpackException.
Proof.
  cbn [unpack UBInt16_Unpack]. intros H.
  apply rbind_Raise in H. destruct H as [H|[v [_ H]]];
    [exact (UBInt16_unpack_at_exn _ _ _ H) | discriminate H].
Qed.

(** The exception each class can raise through [unpack_non_empty]. *)
Lemma unpack_non_empty_Ethernet_exn d e :
  unpack_non_empty Ethernet d = Raise e ->
  e = UnpackException \/ e = TypeError.
Proof.
  destruct d; cbn [unpack_non_empty]; intros H;
    [left; exact (Ethernet_unpack_exn _ _ H)
    |left; exact (Ethernet_unpack_exn _ _ H)
    |right; cbn in H; congruence].
Qed.

Lemma unpack_non_empty_LLDP_exn d e :
  unpack_non_empty LLDP d = Raise e -> e = UnpackException.
Proof.
  destruct d; cbn [unpack_non_empty]; intros H;
    [exact (LLDP_unpack_exn _ _ H) | exact (LLDP_unpack_exn _ _ H)
    | discriminate H].
Qed.

Lemma unpack_non_empty_DPID_exn d e :
  unpack_non_empty DPID d = Raise e ->
  (e = struct_error /\ d <> BinaryData_None) \/
  (e = TypeError /\ d = BinaryData_None).
Proof.
  destruct d; cbn [unpack_non_empty]; intros H;
    [left; split; [exact (DPID_unpack_exn _ _ H) | discriminate]
    |left; split; [exact (DPID_unpack_exn _ _ H) | discriminate]
    |right; split; [cbn in H; congruence | reflexivity]].
Qed.

Lemma unpack_non_empty_UBInt16_exn d e :
  unpack_non_empty UBInt16 d = Raise e -> e = UnpackException.
Proof.
  destruct d; cbn [unpack_non_empty]; intros H;
    [exact (UBInt16_unpack_exn _ _ H) | exact (UBInt16_unpack_exn _ _ H)
    | cbn in H; congruence].
Qed.

(** X6. The listener ends in one of five ways, and in no other.  It
    returns with the app buffer untouched; it raises UnpackException,
    AttributeError or TypeError with the buffer untouched; or the four
    decode steps succeed on the event's data (Ethernet header with the
    LLDP ether type, LLDP structure, dpid, port), the inventory holds a
    switch under the decoded dpid, and it returns after putting exactly
    one event: the link event whose first endpoint is the id of the
    receiving switch with the ingress port and whose second endpoint is
    the id of that switch with the decoded port.  So it never puts an
    event and raises, never puts two events, and a [struct.error] never
    leaves it. *)
Theorem notify_uplink_detected_outcomes :
  forall controller event buf,
    notify_uplink_detected controller event buf = (buf, Ok tt) \/
    notify_uplink_detected controller event buf
      = (buf, Raise UnpackException) \/
    notify_uplink_detected controller event buf
      = (buf, Raise AttributeError) \/
    notify_uplink_detected controller event buf
      = (buf, Raise TypeError) \/
    exists ethernet lldp dpid port_b switch_b,
      unpack_non_empty Ethernet (message_data event) = Ok ethernet /\
      ether_type ethernet = Some EtherType_LLDP /\
      unpack_non_empty LLDP (data ethernet) = Ok lldp /\
      unpack_non_empty DPID (sub_value (chassis_id lldp)) = Ok dpid /\
      unpack_non_empty UBInt16 (sub_value (port_id lldp)) = Ok port_b /\
      get_switch_by_dpid controller (DPID_value dpid) = Some switch_b /\
      notify_uplink_detected controller event buf =
      (buf ++ [mkKytosEvent "diraol/of_lldp.switch.link"
                 (link_content
                    (mkEndpoint (id (source_switch event)) (in_port event))
                    (mkEndpoint (id switch_b) (UBInt16_value port_b)))],
       Ok tt).
Proof.
  intros controller event buf.
  unfold notify_uplink_detected, pbind, lift.
  destruct (unpack_non_empty Ethernet (message_data event))
    as [ethernet|e] eqn:He.
  2:{ destruct (unpack_non_empty_Ethernet_exn _ _ He) as [-> | ->];
        [right; left; reflexivity | do 3 right; left; reflexivity]. }
  destruct (ether_type_is_LLDP ethernet) eqn:Ht; [|left; reflexivity].
  apply ether_type_is_LLDP_iff in Ht.
  destruct (unpack_non_empty LLDP (data ethernet)) as [lldp|e] eqn:Hl.
  2:{ right. left. rewrite (unpack_non_empty_LLDP_exn _ _ Hl).
      reflexivity. }
  cbn [rbind].
  destruct (unpack_non_empty DPID (sub_value (chassis_id lldp)))
    as [dpid|e] eqn:Hd.
  2:{ destruct (unpack_non_empty_DPID_exn _ _ Hd) as [[-> _]|[-> _]];
        [left; reflexivity | do 3 right; left; reflexivity]. }
  cbn [rbind].
  destruct (unpack_non_empty UBInt16 (sub_value (port_id lldp)))
    as [port_b|e] eqn:Hp.
  2:{ right. left. rewrite (unpack_non_empty_UBInt16_exn _ _ Hp).
      reflexivity. }
  destruct (get_switch_by_dpid controller (DPID_value dpid))
    as [switch_b|] eqn:Hg.
  - do 4 right. exists ethernet, lldp, dpid, port_b, switch_b.
    repeat split; assumption.
  - right. right. left. reflexivity.
Qed.

(** The fifth way at work: an LLDP frame that ends after the Ethernet
    header leaves every TLV of the LLDP structure at its default, whose
    sub value is [None]; unpacking the dpid from [None] raises TypeError,
    which [except struct.error] lets through. *)
Example header_only_lldp_frame_raises_TypeError :
  notify_uplink_detected inventory_up
    (mkPacketInEvent switch_down 7 (BinaryData (firstn 14 probe_frame))) []
  = ([], Raise TypeError).
Proof. vm_compute. reflexivity. Qed.

(** X7. The listener keeps no state: what it puts and how it ends depend
    on the inventory and the event alone, not on what the app buffer
    holds; it puts at most one event, after what was there. *)
Theorem notify_uplink_detected_is_stateless :
  forall controller event buf,
    notify_uplink_detected controller event buf =
      (buf ++ fst (notify_uplink_detected controller event []),
       snd (notify_uplink_detected controller event [])) /\
    (List.length (fst (notify_uplink_detected controller event [])) <= 1)%nat.
Proof.
  intros controller event buf.
  split; [apply framed_notify_uplink_detected|].
  unfold notify_uplink_detected, pbind, lift.
  destruct (unpack_non_empty Ethernet (message_data event)) as [ethernet|e];
    [|simpl; lia].
  destruct (ether_type_is_LLDP ethernet); [|simpl; lia].
  destruct (rbind _ _) as [[lldp dpid]|e].
  - destruct (unpack_non_empty UBInt16 (sub_value (port_id lldp)));
      [|simpl; lia].
    destruct (rbind _ _); simpl; lia.
  - destruct e; simpl; lia.
Qed.

(** ** Frames that are too short, and frames of other agents *)

Lemma unpack_non_empty_value (T : Type) `{Unpack T} (d : pydata) :
  d <> BinaryData_None ->
  unpack_non_empty T d = unpack (pydata_value d).
Proof. destruct d; [reflexivity | reflexivity | contradiction]. Qed.

Lemma pydata_value_not_None d :
  (0 < List.length (pydata_value d))%nat -> d <> BinaryData_None.
Proof. intros H ->. simpl in H. lia. Qed.

Lemma Ethernet_unpack_short buff :
  (0 < List.length buff < 14)%nat ->
  unpack (T := Ethernet) buff = Raise UnpackException.
Proof.
  intros H.
  do 14 (destruct buff as [|? buff]; [try (simpl in H; lia); reflexivity|]).
  simpl in H. lia.
Qed.

Lemma DPID_unpack_short buff :
  (List.length buff < 8)%nat -> unpack (T := DPID) buff = Raise struct_error.
Proof.
  intros H.
  do 8 (destruct buff as [|? buff]; [reflexivity|]).
  simpl in H. lia.
Qed.

Lemma DPID_unpack_long buff :
  (8 <= List.length buff)%nat ->
  unpack (T := DPID) buff = Ok (mkDPID (hex_text (firstn 8 buff))).
Proof.
  intros H.
  do 8 (destruct buff as [|? buff]; [simpl in H; lia|]).
  reflexivity.
Qed.

Lemma UBInt16_unpack_short buff :
  (List.length buff < 2)%nat ->
  unpack (T := UBInt16) buff = Raise UnpackException.
Proof.
  intros H.
  do 2 (destruct buff as [|? buff]; [reflexivity|]).
  simpl in H. lia.
Qed.

(** The listener once the Ethernet header, the LLDP structure and the
    dpid are unpacked. *)
Lemma notify_after_dpid controller event ethernet lldp dpid buf :
  unpack_non_empty Ethernet (message_data event) = Ok ethernet ->
  ether_type ethernet = Some EtherType_LLDP ->
  unpack_non_empty LLDP (data ethernet) = Ok lldp ->
  unpack_non_empty DPID (sub_value (chassis_id lldp)) = Ok dpid ->
  notify_uplink_detected controller event buf =
  match unpack_non_empty UBInt16 (sub_value (port_id lldp)) with
  | Raise e => (buf, Raise e)
  | Ok port_b =>
      match get_switch_by_dpid controller (DPID_value dpid) with
      | Some switch_b =>
          (buf ++ [mkKytosEvent "diraol/of_lldp.switch.link"
                     (link_content
                        (mkEndpoint (id (source_switch event))
                                    (in_port event))
                        (mkEndpoint (id switch_b) (UBInt16_value port_b)))],
           Ok tt)
      | None => (buf, Raise AttributeError)
      end
  end.
Proof.
  intros He Ht Hl Hd.
  unfold notify_uplink_detected, pbind, lift. rewrite He.
  apply ether_type_is_LLDP_iff in Ht. rewrite Ht, Hl. cbn [rbind].
  rewrite Hd. cbn [rbind].
  destruct (unpack_non_empty UBInt16 (sub_value (port_id lldp)));
    [|reflexivity].
  destruct (get_switch_by_dpid controller (DPID_value dpid)); reflexivity.
Qed.

(** X8. The Ethernet header is unpacked outside the [try] block: a
    packet-in whose data is not empty and shorter than the 14 bytes of a
    header makes the listener raise UnpackException, with nothing put,
    whatever the inventory. *)
Theorem notify_short_frame_raises :
  forall controller event buf,
    (0 < List.length (pydata_value (message_data event)) < 14)%nat ->
    notify_uplink_detected controller event buf
    = (buf, Raise UnpackException).
Proof.
  intros controller event buf H.
  unfold notify_uplink_detected, pbind, lift.
  rewrite unpack_non_empty_value by (apply pydata_value_not_None; lia).
  rewrite (Ethernet_unpack_short _ H). reflexivity.
Qed.

Lemma notify_short_frame_raises_witness :
  (0 < List.length (pydata_value (BinaryData (firstn 13 probe_frame)))
   < 14)%nat /\
  notify_uplink_detected inventory_up
    (mkPacketInEvent switch_down 7 (BinaryData (firstn 13 probe_frame))) []
  = ([], Raise UnpackException).
Proof.
  assert (0 < List.length (pydata_value (BinaryData (firstn 13 probe_frame)))
          < 14)%nat as H by (simpl; lia).
  split; [exact H|].
  apply (notify_short_frame_raises inventory_up
           (mkPacketInEvent switch_down 7
              (BinaryData (firstn 13 probe_frame))) [] H).
Defined.

(** X10. An LLDP frame whose chassis id value holds bytes, fewer than
    eight of them (a MAC address, a short name, none at all), is taken
    for the frame of another agent: the listener puts nothing and returns
    normally, whatever the rest of the frame and the inventory.  A
    chassis id whose value is [None], as the LLDP structure has it when
    the frame ends after the Ethernet header, is not dropped: the
    listener raises TypeError. *)
Theorem notify_drops_short_chassis_id :
  forall controller event ethernet lldp buf,
    unpack_non_empty Ethernet (message_data event) = Ok ethernet ->
    ether_type ethernet = Some EtherType_LLDP ->
    unpack_non_empty LLDP (data ethernet) = Ok lldp ->
    (sub_value (chassis_id lldp) <> BinaryData_None ->
     (List.length (pydata_value (sub_value (chassis_id lldp))) < 8)%nat ->
     notify_uplink_detected controller event buf = (buf, Ok tt)) /\
    (sub_value (chassis_id lldp) = BinaryData_None ->
     notify_uplink_detected controller event buf = (buf, Raise TypeError)).
Proof.
  intros controller event ethernet lldp buf He Ht Hl.
  apply ether_type_is_LLDP_iff in Ht.
  unfold notify_uplink_detected, pbind, lift. rewrite He, Ht, Hl.
  cbn [rbind]. split.
  - intros Hn Hlen.
    rewrite (unpack_non_empty_value DPID _ Hn), (DPID_unpack_short _ Hlen).
    reflexivity.
  - intros ->. reflexivity.
Qed.

Lemma notify_drops_short_chassis_id_witness :
  unpack_non_empty Ethernet (BinaryData frame_mac_chassis)
    = Ok ethernet_mac_chassis /\
  unpack_non_empty LLDP (data ethernet_mac_chassis) = Ok lldp_mac_chassis /\
  sub_value (chassis_id lldp_mac_chassis) <> BinaryData_None /\
  (List.length (pydata_value (sub_value (chassis_id lldp_mac_chassis)))
   < 8)%nat /\
  notify_uplink_detected inventory_up
    (mkPacketInEvent switch_down 7 (BinaryData frame_mac_chassis)) []
  = ([], Ok tt).
Proof.
  assert (List.length
            (pydata_value (sub_value (chassis_id lldp_mac_chassis))) < 8)%nat
    as H by (simpl; lia).
  assert (sub_value (chassis_id lldp_mac_chassis) <> BinaryData_None)
    as Hn by discriminate.
  split; [reflexivity|]. split; [reflexivity|]. split; [exact Hn|].
  split; [exact H|].
  apply (proj1 (notify_drops_short_chassis_id inventory_up
           (mkPacketInEvent switch_down 7 (BinaryData frame_mac_chassis))
           ethernet_mac_chassis lldp_mac_chassis [] eq_refl eq_refl eq_refl)
           Hn H).
Defined.

(** X9. The port id is unpacked outside the [try] block and before the
    id of the looked-up switch is read: when the dpid unpacks and the
    port id value has fewer than two bytes, the listener raises
    UnpackException and puts nothing, whether or not the inventory holds
    the switch. *)
Theorem notify_short_port_id_raises :
  forall controller event ethernet lldp dpid buf,
    unpack_non_empty Ethernet (message_data event) = Ok ethernet ->
    ether_type ethernet = Some EtherType_LLDP ->
    unpack_non_empty LLDP (data ethernet) = Ok lldp ->
    unpack_non_empty DPID (sub_value (chassis_id lldp)) = Ok dpid ->
    (List.length (pydata_value (sub_value (port_id lldp))) < 2)%nat ->
    notify_uplink_detected controller event buf
    = (buf, Raise UnpackException).
Proof.
  intros controller event ethernet lldp dpid buf He Ht Hl Hd Hlen.
  rewrite (notify_after_dpid _ _ _ _ _ buf He Ht Hl Hd).
  destruct (sub_value (port_id lldp)) as [b|b|]; cbn [unpack_non_empty];
    [rewrite (UBInt16_unpack_short b Hlen)
    |rewrite (UBInt16_unpack_short b Hlen)|]; reflexivity.
Qed.

Lemma notify_short_port_id_raises_witness :
  unpack_non_empty Ethernet (BinaryData frame_short_port)
    = Ok ethernet_short_port /\
  unpack_non_empty LLDP (data ethernet_short_port) = Ok lldp_short_port /\
  unpack_non_empty DPID (sub_value (chassis_id lldp_short_port))
    = Ok (mkDPID "00:00:00:00:00:00:00:01") /\
  (List.length (pydata_value (sub_value (port_id lldp_short_port)))
   < 2)%nat /\
  get_switch_by_dpid inventory_up "00:00:00:00:00:00:00:01"
    = Some switch_up /\
  notify_uplink_detected inventory_up
    (mkPacketInEvent switch_down 7 (BinaryData frame_short_port)) []
  = ([], Raise UnpackException).
Proof.
  assert (List.length
            (pydata_value (sub_value (port_id lldp_short_port))) < 2)%nat
    as H by (simpl; lia).
  split; [reflexivity|]. split; [reflexivity|]. split; [reflexivity|].
  split; [exact H|]. split; [reflexivity|].
  apply (notify_short_port_id_raises inventory_up
           (mkPacketInEvent switch_down 7 (BinaryData frame_short_port))
           ethernet_short_port lldp_short_port
           (mkDPID "00:00:00:00:00:00:00:01") []
           eq_refl eq_refl eq_refl eq_refl H).
Defined.

(** X11. The listener looks at no TLV type and no sub type, and at no
    more than the first eight bytes of the chassis id value and the first
    two of the port id value.  Any LLDP frame whose chassis id value has
    at least eight bytes and whose port id value has at least two is
    handled as a probe: the inventory is asked for the canonical text of
    the first eight bytes; on a hit one link event is put, with the first
    two port bytes read as a big-endian number, and on a miss
    AttributeError is raised. *)
Theorem notify_takes_any_long_chassis_id :
  forall controller event ethernet lldp p0 p1 ptail buf,
    unpack_non_empty Ethernet (message_data event) = Ok ethernet ->
    ether_type ethernet = Some EtherType_LLDP ->
    unpack_non_empty LLDP (data ethernet) = Ok lldp ->
    (8 <= List.length (pydata_value (sub_value (chassis_id lldp))))%nat ->
    pydata_value (sub_value (port_id lldp)) = p0 :: p1 :: ptail ->
    notify_uplink_detected controller event buf =
    match get_switch_by_dpid controller
            (hex_text (firstn 8 (pydata_value (sub_value (chassis_id lldp)))))
    with
    | Some switch_b =>
        (buf ++ [mkKytosEvent "diraol/of_lldp.switch.link"
                   (link_content
                      (mkEndpoint (id (source_switch event)) (in_port event))
                      (mkEndpoint (id switch_b)
                                  (256 * byte_to_Z p0 + byte_to_Z p1)))],
         Ok tt)
    | None => (buf, Raise AttributeError)
    end.
Proof.
  intros controller event ethernet lldp p0 p1 ptail buf He Ht Hl Hlen Hport.
  assert (unpack_non_empty DPID (sub_value (chassis_id lldp)) =
          Ok (mkDPID (hex_text (firstn 8
                 (pydata_value (sub_value (chassis_id lldp))))))) as Hd.
  { rewrite unpack_non_empty_value by (apply pydata_value_not_None; lia).
    apply DPID_unpack_long. exact Hlen. }
  rewrite (notify_after_dpid _ _ _ _ _ buf He Ht Hl Hd).
  rewrite unpack_non_empty_value, Hport;
    [reflexivity | apply pydata_value_not_None; rewrite Hport; simpl; lia].
Qed.

Lemma notify_takes_any_long_chassis_id_witness :
  unpack_non_empty Ethernet (BinaryData frame_named_chassis)
    = Ok ethernet_named_chassis /\
  unpack_non_empty LLDP (data ethernet_named_chassis)
    = Ok lldp_named_chassis /\
  (8 <= List.length
          (pydata_value (sub_value (chassis_id lldp_named_chassis))))%nat /\
  get_switch_by_dpid inventory_up "73:77:69:74:63:68:2d:30" = None /\
  notify_uplink_detected inventory_up
    (mkPacketInEvent switch_down 7 (BinaryData frame_named_chassis)) []
  = ([], Raise AttributeError).
Proof.
  assert (8 <= List.length
                 (pydata_value (sub_value (chassis_id lldp_named_chassis))))%nat
    as H by (simpl; lia).
  split; [reflexivity|]. split; [reflexivity|]. split; [exact H|].
  split; [reflexivity|].
  apply (notify_takes_any_long_chassis_id inventory_up
           (mkPacketInEvent switch_down 7 (BinaryData frame_named_chassis))
           ethernet_named_chassis lldp_named_chassis x65 x31 [] []
           eq_refl eq_refl eq_refl H eq_refl).
Defined.

(** ** From the Prober to the listener *)

(** The first two bytes of a packed port, read as a big-endian number. *)
Lemma int_pack_read_back c v pb :
  int_pack c v = Ok pb ->
  exists b0 b1 tl,
    pb = b0 :: b1 :: tl /\
    256 * byte_to_Z b0 + byte_to_Z b1 = port_read_back c v.
Proof.
  intros H.
  destruct (int_pack_Ok _ _ _ H) as [[-> [Hv ->]]|[-> [Hv ->]]];
    eexists; eexists; eexists; (split; [reflexivity|]);
    rewrite !byte_to_Z_mod; cbn [port_read_back].
  - rewrite Z.mod_mod by lia.
    rewrite (Z.mod_small (v / 256)).
    + pose proof (Z.div_mod v 256). lia.
    + split; [apply Z.div_pos; lia | apply Z.div_lt_upper_bound; lia].
  - replace (v / 16777216) with (v / 65536 / 256)
      by (rewrite Z.div_div by lia; reflexivity).
    rewrite (Z.mod_small (v / 65536 / 256)).
    + pose proof (Z.div_mod (v / 65536) 256). lia.
    + split; [apply Z.div_pos; [apply Z.div_pos|]; lia|].
      apply Z.div_lt_upper_bound; [lia|].
      apply Z.div_lt_upper_bound; lia.
Qed.

(** The listener on a probe frame. *)
Lemma notify_probe_frame bs mac b0 b1 tl controller switch_a port_a buf :
  List.length bs = 8%nat -> List.length mac = 6%nat ->
  List.length (b0 :: b1 :: tl) = 2%nat \/
  List.length (b0 :: b1 :: tl) = 4%nat ->
  notify_uplink_detected controller
    (mkPacketInEvent switch_a port_a
       (BinaryData (probe_frame_bytes bs mac (b0 :: b1 :: tl))))
    buf =
  match get_switch_by_dpid controller (hex_text bs) with
  | Some switch_b =>
      (buf ++ [mkKytosEvent "diraol/of_lldp.switch.link"
                 (link_content
                    (mkEndpoint (id switch_a) port_a)
                    (mkEndpoint (id switch_b)
                                (256 * byte_to_Z b0 + byte_to_Z b1)))],
       Ok tt)
  | None => (buf, Raise AttributeError)
  end.
Proof.
  intros Hlb Hlm Hlp. set (pb := b0 :: b1 :: tl) in *.
  assert (unpack_non_empty Ethernet (BinaryData (probe_frame_bytes bs mac pb))
          = Ok (mkEthernet (hex_text [x01; x80; xc2; x00; x00; x0e])
                           (hex_text mac) (Some EtherType_LLDP)
                           (BinaryData (probe_lldp_bytes bs pb)))) as He.
  { unfold unpack_non_empty, probe_frame_bytes.
    apply Ethernet_unpack_frame; [reflexivity | exact Hlm]. }
  assert (unpack_non_empty LLDP (BinaryData (probe_lldp_bytes bs pb)) =
          Ok (mkLLDP (mkTLVWithSubType 1 7 (BinaryData bs))
                     (mkTLVWithSubType 2 7 (BinaryData pb))
                     (mkGenericTLV 3 [x00; x78])
                     (mkGenericTLV 0 []))) as HL.
  { unfold unpack_non_empty. apply LLDP_unpack_probe; assumption. }
  assert (unpack_non_empty DPID (BinaryData bs) = Ok (mkDPID (hex_text bs)))
    as Hd.
  { unfold unpack_non_empty. apply DPID_unpack_bytes. exact Hlb. }
  assert (unpack_non_empty UBInt16 (BinaryData pb) =
          Ok (mkUBInt16 (256 * byte_to_Z b0 + byte_to_Z b1))) as Hu
      by reflexivity.
  rewrite (notify_decoded controller
             (mkPacketInEvent switch_a port_a
                (BinaryData (probe_frame_bytes bs mac pb)))
             _ _ _ _ buf He eq_refl HL Hd Hu).
  reflexivity.
Qed.

(** X12. Every probe the Prober puts is understood by the listener; the
    dpid comes back in canonical spelling and the port as its first two
    packed bytes.  Whenever an iteration of the inner loop puts an event,
    the listener, given the data of that packet-out, asks the inventory
    for the canonical text (lower-case hexadecimal, two digits per byte)
    of the eight bytes the switch's dpid packs to, and on a hit puts the
    link event whose port is the interface's port when the interface
    holds it as a [UBInt16], and the upper sixteen bits of it when the
    interface holds it as a [UBInt32].  So a switch whose dpid text is
    not in canonical spelling is probed, but looked up under another key
    than its own text, and a 32-bit port below 65536 is reported as
    port 0. *)
Theorem probe_is_read_back_in_canonical_form :
  forall switch version interface buf ev,
    execute_interface switch version interface buf = (buf ++ [ev], Ok tt) ->
    exists f dpid_bytes frame,
      DPID_pack (dpid switch) = Ok dpid_bytes /\
      event_content ev =
        packet_out_content (connection switch)
          (mkPacketOut f frame
             [mkActionOutput f (Some (port_number interface))]) /\
      forall controller switch_a port_a buf',
        notify_uplink_detected controller
          (mkPacketInEvent switch_a port_a (BinaryData frame)) buf' =
        match get_switch_by_dpid controller (hex_text dpid_bytes) with
        | Some switch_b =>
            (buf' ++ [mkKytosEvent "diraol/of_lldp.switch.link"
                        (link_content
                           (mkEndpoint (id switch_a) port_a)
                           (mkEndpoint (id switch_b)
                              (port_read_back
                                 (port_number_class interface)
                                 (port_number interface))))],
             Ok tt)
        | None => (buf', Raise AttributeError)
        end.
Proof.
  intros switch version interface buf ev H.
  destruct (execute_interface_put_inv _ _ _ _ _ H)
    as [f [bs [pb [mac [_ [_ [Hd [Hp [Hm ->]]]]]]]]].
  exists f, bs, (probe_frame_bytes bs mac pb).
  split; [exact Hd|]. split; [reflexivity|].
  intros controller switch_a port_a buf'.
  pose proof (int_pack_length _ _ _ Hp) as Hlen.
  destruct (int_pack_read_back _ _ _ Hp) as [b0 [b1 [tl [-> Hread]]]].
  rewrite <- Hread.
  apply notify_probe_frame;
    [exact (DPID_pack_length _ _ Hd) | exact (HWAddress_pack_length _ _ Hm)|].
  rewrite Hlen. destruct (port_number_class interface); auto.
Qed.

Lemma probe_is_read_back_in_canonical_form_witness :
  execute_interface switch_upper_case (Some 0x01)
                    (mkInterface 1 pyof_UBInt16 "aa:bb:cc:dd:ee:0a") [] =
    ([] ++ [mkKytosEvent "diraol/of_lldp.messages.out.ofpt_packet_out"
              (packet_out_content (connection switch_upper_case)
                 (mkPacketOut v0x01
                    (probe_frame_bytes
                       [x00; x00; x00; x00; x00; x00; x00; x0a]
                       [xaa; xbb; xcc; xdd; xee; x0a] [x00; x01])
                    [mkActionOutput v0x01 (Some 1)]))],
     Ok tt) /\
  exists f dpid_bytes frame,
    DPID_pack "00:00:00:00:00:00:00:0A" = Ok dpid_bytes /\
    event_content
      (mkKytosEvent "diraol/of_lldp.messages.out.ofpt_packet_out"
         (packet_out_content (connection switch_upper_case)
            (mkPacketOut v0x01
               (probe_frame_bytes
                  [x00; x00; x00; x00; x00; x00; x00; x0a]
                  [xaa; xbb; xcc; xdd; xee; x0a] [x00; x01])
               [mkActionOutput v0x01 (Some 1)]))) =
      packet_out_content (connection switch_upper_case)
        (mkPacketOut f frame [mkActionOutput f (Some 1)]) /\
    notify_uplink_detected
      (mkController [("00:00:00:00:00:00:00:0A"%string, switch_upper_case)])
      (mkPacketInEvent switch_down 7 (BinaryData frame)) [] =
    match get_switch_by_dpid
            (mkController
               [("00:00:00:00:00:00:00:0A"%string, switch_upper_case)])
            (hex_text dpid_bytes) with
    | Some switch_b =>
        ([] ++ [mkKytosEvent "diraol/of_lldp.switch.link"
                  (link_content
                     (mkEndpoint (id switch_down) 7)
                     (mkEndpoint (id switch_b) 1))],
         Ok tt)
    | None => ([], Raise AttributeError)
    end.
Proof.
  split; [reflexivity|].
  destruct (probe_is_read_back_in_canonical_form switch_upper_case
              (Some 0x01) (mkInterface 1 pyof_UBInt16 "aa:bb:cc:dd:ee:0a")
              [] _ eq_refl)
    as [f [bs [frame [Hd [Hev Hn]]]]].
  exists f, bs, frame. split; [exact Hd|]. split; [exact Hev|].
  apply Hn.
Defined.

(** The canonical spelling in the round trip above, at a dpid written
    with an upper-case digit: the probe goes out, and the listener misses
    the switch in an inventory keyed by the switch's own text. *)
Example upper_case_dpid_is_looked_up_in_lower_case :
  DPID_pack (dpid switch_upper_case)
    = Ok [x00; x00; x00; x00; x00; x00; x00; x0a] /\
  hex_text [x00; x00; x00; x00; x00; x00; x00; x0a]
    = "00:00:00:00:00:00:00:0a"%string /\
  notify_uplink_detected
    (mkController [("00:00:00:00:00:00:00:0A"%string, switch_upper_case)])
    (mkPacketInEvent switch_down 7
       (BinaryData (probe_frame_bytes
                      [x00; x00; x00; x00; x00; x00; x00; x0a]
                      [xaa; xbb; xcc; xdd; xee; x0a] [x00; x01]))) []
  = ([], Raise AttributeError).
Proof. repeat split; vm_compute; reflexivity. Qed.

(** The upper half at work: port 3 held as a [UBInt32] goes out as four
    bytes, and the listener, reading two, reports port 0. *)
Example port_held_as_UBInt32_is_read_back_as_its_upper_half :
  execute (mkController [("00:00:00:00:00:00:00:01"%string, switch_up32)]) []
  = ([mkKytosEvent "diraol/of_lldp.messages.out.ofpt_packet_out"
        (packet_out_content (connection switch_up32)
           (mkPacketOut v0x04
              (probe_frame_bytes [x00; x00; x00; x00; x00; x00; x00; x01]
                                 [xaa; xbb; xcc; xdd; xee; x01]
                                 [x00; x00; x00; x03])
              [mkActionOutput v0x04 (Some 3)]))],
     Ok tt) /\
  notify_uplink_detected inventory_up
    (mkPacketInEvent switch_down 7
       (BinaryData
          (probe_frame_bytes [x00; x00; x00; x00; x00; x00; x00; x01]
                             [xaa; xbb; xcc; xdd; xee; x01]
                             [x00; x00; x00; x03]))) []
  = ([mkKytosEvent "diraol/of_lldp.switch.link"
        (link_content (mkEndpoint "00:00:00:00:00:00:00:09" 7)
                      (mkEndpoint "00:00:00:00:00:00:00:01" 0))],
     Ok tt).
Proof. split; vm_compute; reflexivity. Qed.
